(** * Zakat calculator: the valuation and aggregation engine of
      [scripts/fetch_all.py]

    A shallow embedding of the computational core of the pipeline
    ([safe_get], [fetch_company], [_convert_and_calc_pct],
    [compute_zakaatable_pcts], [compute_pension_data], [compute_isa_data])
    and the properties of it that the specification states.

    Numbers.  The amounts, rates, weights and percentages of the script are
    Python numbers.  They are embedded as rationals ([Q]) with exact
    arithmetic; [round(x, 4)] is rounding to the nearest multiple of
    [1/10000], ties to even.  The rounding error of binary floating point,
    infinities and not-a-number results of arithmetic are outside the
    rational embedding (a not-a-number cell of a balance sheet is kept, as
    a cell that [safe_get] skips).  [ZeroDivisionError] is kept: a division by a
    variable returns [None] when the divisor is zero.

    Binary64.  Control flow, guards, ranges and orderings do not depend
    on the rounding of floating point, and are proved over the rationals.
    The exact value of a conversion or of a weighted sum does: the
    conversion of lines 307-311 and the aggregation of lines 394-407 are
    therefore embedded a second time, in the module [B64], over the
    primitive binary64 floats, with [round] as Python computes it (the
    decimal nearest to the binary value, ties to even, then the float
    nearest to that decimal).

    Dictionaries.  [fx_rates], the balance-sheet column and the nested
    breakdown dictionaries are finite maps with string keys; the records
    the script builds with a fixed set of keys are Rocq records whose
    fields are optional where the script reads them with [dict.get]. *)

From Stdlib Require Import QArith Qround ZArith Lia Permutation Ascii String.
From Stdlib Require Import Floats.
From stdpp Require Import base option gmap strings list.

Set Warnings "-inexact-float".

Local Open Scope Q_scope.

(** ** Python primitives used by the script *)

Module Py.

(** [a < b] and [a <= b], [a == b] on numbers, as booleans. *)
Definition ltb (a b : Q) : bool := negb (Qle_bool b a).
Definition leb (a b : Q) : bool := Qle_bool a b.
Definition eqb (a b : Q) : bool := Qeq_bool a b.

(** Truth value of a number: [bool(x)] is [x != 0]. *)
Definition truthy (x : Q) : bool := negb (eqb x 0).

(** [x or y] on numbers. *)
Definition or_ (x y : Q) : Q := if truthy x then x else y.

(** [o.get(k) or y] where the key may be absent ([None] is falsy). *)
Definition or_opt (x : option Q) (y : Q) : Q :=
  match x with
  | Some v => or_ v y
  | None => y
  end.

(** [max(a, b)] keeps its first argument unless the second is strictly
    greater; [min(a, b)] keeps it unless the second is strictly smaller. *)
Definition max (a b : Q) : Q := if ltb a b then b else a.
Definition min (a b : Q) : Q := if ltb b a then b else a.

(** [sum(xs)]: a left fold from [0]. *)
Definition sum (xs : list Q) : Q := fold_left Qplus xs 0.

(** [a / b] with a divisor that is a variable: [ZeroDivisionError] is
    [None]. *)
Definition truediv (a b : Q) : option Q :=
  if eqb b 0 then None else Some (a / b).

(** Nearest integer, ties to even. *)
Definition round_half_even (x : Q) : Z :=
  let n := Qnum x in
  let d := Zpos (Qden x) in
  let f := (n / d)%Z in
  match (2 * (n mod d) ?= d)%Z with
  | Lt => f
  | Gt => (f + 1)%Z
  | Eq => if Z.even f then f else (f + 1)%Z
  end.

(** [round(x, ndigits)] for [ndigits >= 0]. *)
Definition round (x : Q) (ndigits : nat) : Q :=
  let p := Pos.pow 10 (Pos.of_nat ndigits) in
  let p := match ndigits with O => 1%positive | _ => p end in
  Qmake (round_half_even (x * inject_Z (Zpos p))) p.

(** [ch.isupper()] on the ASCII letters of the field names. *)
Definition isupper (ch : ascii) : bool :=
  let n := nat_of_ascii ch in (65 <=? n)%nat && (n <=? 90)%nat.

End Py.

(** ** 1. FX rates *)

(** The JSON object the rate service answers, as far as the script reads
    it: [data.get("result")] and [data["rates"]]. *)
Record fx_response := {
  api_result : option string;
  api_rates : option (gmap string Q);
}.

(** [fetch_fx_rates] from the parsed answer on (the request and the file
    written are left out).  [None] is a raised exception: the
    [RuntimeError] of an answer that is not a success, or the [KeyError] of
    an answer without rates. *)
Definition fetch_fx_rates (data : fx_response) : option (gmap string Q) :=
  if bool_decide (api_result data ≠ Some "success"%string) then None
  else
    rates ← api_rates data;
    let gbp_rate := default 1 (rates !! "GBP"%string) in
    let rates := <["GBp"%string := gbp_rate * 100]> rates in
    let rates := <["GBX"%string := gbp_rate * 100]> rates in
    Some rates.

(** ** 2. Balance sheet fetcher *)

(** A cell of the balance-sheet column: [None], a not-a-number float, or a
    number. *)
Inductive cell :=
  | CNone
  | CNaN
  | CNum (v : Q).

(** [val is not None and not (isinstance(val, float) and math.isnan(val))],
    with [float(val)] when it holds. *)
Definition cell_value (c : cell) : option Q :=
  match c with
  | CNum v => Some v
  | CNone | CNaN => None
  end.

(** The loop that builds [spaced]: a space before every upper-case
    character that is not the first one. *)
Fixpoint spaced_from (i : nat) (name : string) : string :=
  match name with
  | EmptyString => EmptyString
  | String ch rest =>
      let tail := String ch (spaced_from (S i) rest) in
      if Py.isupper ch && negb (i =? 0)%nat then String " "%char tail else tail
  end.

Definition spaced (name : string) : string := spaced_from 0 name.

(** [name in series.index] followed by the test on [series[name]]. *)
Definition usable (series : gmap string cell) (name : string) : option Q :=
  match series !! name with
  | Some c => cell_value c
  | None => None
  end.

Fixpoint safe_get (series : gmap string cell) (field_names : list string)
    (default : Q) : Q :=
  match field_names with
  | [] => default
  | name :: rest =>
      match usable series name with
      | Some v => v
      | None =>
          let sp := spaced name in
          if bool_decide (sp ≠ name) then
            match usable series sp with
            | Some v => v
            | None => safe_get series rest default
            end
          else safe_get series rest default
      end
  end.

(** [ticker.info], a dictionary read with [info.get]. *)
Record info_dict := {
  marketCap : option Q;
  currency : option string;
  financialCurrency : option string;
  currentPrice : option Q;
  previousClose : option Q;
  sharesOutstanding : option Q;
  longName : option string;
  shortName : option string;
}.

(** [info = {}]. *)
Definition empty_info : info_dict :=
  {| marketCap := None; currency := None; financialCurrency := None;
     currentPrice := None; previousClose := None; sharesOutstanding := None;
     longName := None; shortName := None |}.

(** A balance-sheet data frame: its columns in order, each with the label
    the script prints as [bs_date] and its cells by field name. *)
Definition dataframe := list (string * gmap string cell).

(** [df.empty]: no column, or no row. *)
Definition df_empty (df : dataframe) : bool :=
  match df with
  | [] => true
  | (_, col) :: _ => bool_decide (col = ∅)
  end.

(** What [yf.Ticker(ticker_symbol)] answers.  [None] stands for a property
    that raises (the script catches it) or, for the two balance sheets,
    that is [None]. *)
Record yf_ticker := {
  info : option info_dict;
  quarterly_balance_sheet : option dataframe;
  balance_sheet : option dataframe;
}.

(** The dictionary [fetch_company] returns, which [compute_zakaatable_pcts]
    and the two [compute_*_data] read with [dict.get]: a field is [None]
    when the key is absent. *)
Record company_data := {
  cd_ticker : option string;
  cd_long_name : option string;
  cd_market_cap : option Q;
  cd_trading_currency : option string;
  cd_financial_currency : option string;
  cd_current_price : option Q;
  cd_bs_date : option string;
  cd_bs_type : option string;
  cd_assets : option (gmap string Q);
  cd_assets_broad : option (gmap string Q);
  cd_liabilities : option (gmap string Q);
  cd_net_zakaatable : option Q;
  cd_net_zakaatable_broad : option Q;
  cd_net_zakaatable_assets_only : option Q;
  cd_error : option string;
  cd_zakaatable_pct : option Q;
  cd_fallback : option bool;
}.

(** The empty dictionary [{}]. *)
Definition empty_company : company_data :=
  {| cd_ticker := None; cd_long_name := None; cd_market_cap := None;
     cd_trading_currency := None; cd_financial_currency := None;
     cd_current_price := None; cd_bs_date := None; cd_bs_type := None;
     cd_assets := None; cd_assets_broad := None; cd_liabilities := None;
     cd_net_zakaatable := None; cd_net_zakaatable_broad := None;
     cd_net_zakaatable_assets_only := None; cd_error := None;
     cd_zakaatable_pct := None; cd_fallback := None |}.

(** [a or b] on strings: the empty string is falsy. *)
Definition or_str (a : option string) (b : string) : string :=
  match a with
  | Some s => if bool_decide (s = ""%string) then b else s
  | None => b
  end.

(** The record returned on either fallback path of [fetch_company]. *)
Definition fallback_record (ticker_symbol long_name : string) (market_cap : Q)
    (trading_currency financial_currency : string) (current_price : Q)
    (error : string) : company_data :=
  {| cd_ticker := Some ticker_symbol;
     cd_long_name := Some long_name;
     cd_market_cap := Some market_cap;
     cd_trading_currency := Some trading_currency;
     cd_financial_currency := Some financial_currency;
     cd_current_price := Some current_price;
     cd_bs_date := None; cd_bs_type := None;
     cd_assets := None; cd_assets_broad := None; cd_liabilities := None;
     cd_net_zakaatable := None; cd_net_zakaatable_broad := None;
     cd_net_zakaatable_assets_only := None;
     cd_error := Some error;
     cd_zakaatable_pct := Some 25.0;
     cd_fallback := Some true |}.

(** The line items [fetch_company] resolves from the latest column, and the
    totals it derives from them. *)
Record line_items := {
  cash_sti : Q;
  receivables : Q;
  inventory : Q;
  other_current : Q;
  gross_zakaatable : Q;
  nc_investments : Q;
  nc_deferred_tax_asset : Q;
  nc_receivables : Q;
  nc_liquid_total : Q;
  gross_zakaatable_broad : Q;
  payables : Q;
  current_debt : Q;
  accrued : Q;
  taxes : Q;
  total_deductions : Q;
  net_zakaatable_strict : Q;
  net_zakaatable_broad : Q;
  net_zakaatable_assets_only : Q;
}.

(** Lines 158-198 of the script: the zakaatable assets, the non-current
    liquid assets and the deductible liabilities of the column [latest]. *)
Definition resolve_line_items (latest : gmap string cell) : line_items :=
  let cash_sti :=
    safe_get latest ["CashCashEquivalentsAndShortTermInvestments"%string] 0.0 in
  let cash_sti :=
    if Py.eqb cash_sti 0 then
      safe_get latest ["CashAndCashEquivalents"; "CashEquivalents"]%string 0.0
      + safe_get latest
          ["OtherShortTermInvestments"; "AvailableForSaleSecurities"]%string 0.0
    else cash_sti in
  let receivables :=
    safe_get latest
      ["Receivables"; "AccountsReceivable"; "NetReceivables"]%string 0.0 in
  let inventory := safe_get latest ["Inventory"; "Inventories"]%string 0.0 in
  let other_current :=
    safe_get latest ["OtherCurrentAssets"; "PrepaidAssets"]%string 0.0 in
  let gross_zakaatable := cash_sti + receivables + inventory + other_current in
  let nc_investments :=
    safe_get latest
      ["InvestmentsAndAdvances"; "InvestmentinFinancialAssets"]%string 0.0 in
  let nc_deferred_tax_asset :=
    safe_get latest
      ["NonCurrentDeferredTaxesAssets"; "NonCurrentDeferredAssets"]%string 0.0 in
  let nc_receivables :=
    safe_get latest ["NonCurrentAccountsReceivable"%string] 0.0 in
  let nc_liquid_total :=
    nc_investments + nc_deferred_tax_asset + nc_receivables in
  let gross_zakaatable_broad := gross_zakaatable + nc_liquid_total in
  let payables := safe_get latest ["AccountsPayable"%string] 0.0 in
  let current_debt := safe_get latest ["CurrentDebt"%string] 0.0 in
  let current_debt :=
    if Py.eqb current_debt 0 then
      let combined :=
        safe_get latest ["CurrentDebtAndCapitalLeaseObligation"%string] 0.0 in
      let lease :=
        safe_get latest ["CurrentCapitalLeaseObligation"%string] 0.0 in
      Py.max (combined - lease) 0
    else current_debt in
  let accrued := safe_get latest ["CurrentAccruedExpenses"%string] 0.0 in
  let taxes :=
    safe_get latest
      ["TotalTaxPayable"; "IncomeTaxPayable"; "TaxesPayable"]%string 0.0 in
  let total_deductions := payables + current_debt + accrued + taxes in
  {| cash_sti := cash_sti;
     receivables := receivables;
     inventory := inventory;
     other_current := other_current;
     gross_zakaatable := gross_zakaatable;
     nc_investments := nc_investments;
     nc_deferred_tax_asset := nc_deferred_tax_asset;
     nc_receivables := nc_receivables;
     nc_liquid_total := nc_liquid_total;
     gross_zakaatable_broad := gross_zakaatable_broad;
     payables := payables;
     current_debt := current_debt;
     accrued := accrued;
     taxes := taxes;
     total_deductions := total_deductions;
     net_zakaatable_strict := Py.max (gross_zakaatable - total_deductions) 0;
     net_zakaatable_broad :=
       Py.max (gross_zakaatable_broad - total_deductions) 0;
     net_zakaatable_assets_only := gross_zakaatable_broad |}.

(** [all_zero] of the script: the six core line items are all [0]. *)
Definition all_zero (li : line_items) : bool :=
  Py.eqb (cash_sti li) 0 && Py.eqb (receivables li) 0
  && Py.eqb (inventory li) 0 && Py.eqb (other_current li) 0
  && Py.eqb (payables li) 0 && Py.eqb (current_debt li) 0.

(** Lines 123-140: the quarterly balance sheet when it is there and not
    empty, else the annual one under the same test, with the [bs_type]. *)
Definition choose_balance_sheet (t : yf_ticker) : option dataframe * string :=
  let bs :=
    match quarterly_balance_sheet t with
    | Some qbs => if negb (df_empty qbs) then Some qbs else None
    | None => None
    end in
  match bs with
  | Some _ => (bs, "quarterly"%string)
  | None =>
      (match balance_sheet t with
       | Some abs_ => if negb (df_empty abs_) then Some abs_ else None
       | None => None
       end, "annual"%string)
  end.

Definition fetch_company (ticker_symbol : string) (t : yf_ticker)
    : company_data :=
  let info := default empty_info (info t) in
  let market_cap := Py.or_opt (marketCap info) 0 in
  let trading_currency := default "USD"%string (currency info) in
  let financial_currency :=
    default trading_currency (financialCurrency info) in
  let current_price :=
    Py.or_opt (currentPrice info) (Py.or_opt (previousClose info) 0) in
  let shares_outstanding := Py.or_opt (sharesOutstanding info) 0 in
  let long_name :=
    or_str (longName info) (or_str (shortName info) ticker_symbol) in
  let market_cap :=
    if negb (Py.truthy market_cap) && Py.truthy shares_outstanding
       && Py.truthy current_price
    then shares_outstanding * current_price
    else market_cap in
  let '(bs, bs_type) := choose_balance_sheet t in
  match bs with
  | None | Some [] =>
      fallback_record ticker_symbol long_name market_cap trading_currency
        financial_currency current_price "No balance sheet data available"
  | Some ((bs_date, latest) :: _) =>
      if df_empty (default [] bs) then
        fallback_record ticker_symbol long_name market_cap trading_currency
          financial_currency current_price "No balance sheet data available"
      else
      let li := resolve_line_items latest in
      if all_zero li then
        fallback_record ticker_symbol long_name market_cap trading_currency
          financial_currency current_price "Balance sheet data all empty/NaN"
      else
        {| cd_ticker := Some ticker_symbol;
           cd_long_name := Some long_name;
           cd_market_cap := Some market_cap;
           cd_trading_currency := Some trading_currency;
           cd_financial_currency := Some financial_currency;
           cd_current_price := Some current_price;
           cd_bs_date := Some bs_date;
           cd_bs_type := Some bs_type;
           cd_assets := Some (list_to_map [
             ("cash_and_sti"%string, cash_sti li);
             ("receivables"%string, receivables li);
             ("inventory"%string, inventory li);
             ("other_current"%string, other_current li);
             ("total"%string, gross_zakaatable li)]);
           cd_assets_broad := Some (list_to_map [
             ("nc_investments"%string, nc_investments li);
             ("nc_deferred_tax_asset"%string, nc_deferred_tax_asset li);
             ("nc_receivables"%string, nc_receivables li);
             ("nc_liquid_total"%string, nc_liquid_total li);
             ("total"%string, gross_zakaatable_broad li)]);
           cd_liabilities := Some (list_to_map [
             ("payables"%string, payables li);
             ("current_debt"%string, current_debt li);
             ("accrued_expenses"%string, accrued li);
             ("taxes_payable"%string, taxes li);
             ("total"%string, total_deductions li)]);
           cd_net_zakaatable := Some (net_zakaatable_strict li);
           cd_net_zakaatable_broad := Some (net_zakaatable_broad li);
           cd_net_zakaatable_assets_only :=
             Some (net_zakaatable_assets_only li);
           cd_error := None;
           cd_zakaatable_pct := None;
           cd_fallback := Some false |}
  end.

(** What Yahoo answers for each ticker symbol: the ticker object, or the
    message of an exception that escapes [fetch_company]. *)
Definition yahoo := string → yf_ticker + string.

(** The record [fetch_all_balance_sheets] stores for a ticker whose fetch
    raised. *)
Definition exception_record (t e : string) : company_data :=
  {| cd_ticker := Some t; cd_long_name := None; cd_market_cap := None;
     cd_trading_currency := None; cd_financial_currency := None;
     cd_current_price := None; cd_bs_date := None; cd_bs_type := None;
     cd_assets := None; cd_assets_broad := None; cd_liabilities := None;
     cd_net_zakaatable := None; cd_net_zakaatable_broad := None;
     cd_net_zakaatable_assets_only := None;
     cd_error := Some e;
     cd_zakaatable_pct := Some 25.0;
     cd_fallback := Some true |}.

(** Truth value of [data.get("error")]: a string that is not empty. *)
Definition truthy_str (o : option string) : bool :=
  match o with
  | Some e => negb (bool_decide (e = ""%string))
  | None => false
  end.

(** One turn of the loop of [fetch_all_balance_sheets], on the state
    [(results, errors)] (the printing and the pause are left out). *)
Definition fetch_one (y : yahoo)
    (st : gmap string company_data * list (string * string)) (t : string)
    : gmap string company_data * list (string * string) :=
  let '(results, errors) := st in
  match y t with
  | inl answer =>
      let data := fetch_company t answer in
      let results := <[t := data]> results in
      if truthy_str (cd_error data)
      then (results, errors ++ [(t, default ""%string (cd_error data))])
      else (results, errors)
  | inr e =>
      (<[t := exception_record t e]> results, errors ++ [(t, e)])
  end.

(** The loop, with the list of errors it prints at the end. *)
Definition fetch_all_loop (tickers : list string) (y : yahoo)
    : gmap string company_data * list (string * string) :=
  fold_left (fetch_one y) tickers (∅, []).

Definition fetch_all_balance_sheets (tickers : list string) (y : yahoo)
    : gmap string company_data :=
  (fetch_all_loop tickers y).1.

(** ** 3. Zakat computation *)

(** [d.get(k, 1)] on the rate table. *)
Definition rate (fx_rates : gmap string Q) (code : string) : Q :=
  default 1 (fx_rates !! code).

(** Lines 307-311 of [_convert_and_calc_pct]: the amount [net_val], reported
    in [fin_curr], converted into [mcap_curr]. *)
Definition normalize (net_val : Q) (fin_curr mcap_curr : string)
    (fx_rates : gmap string Q) : option Q :=
  if bool_decide (fin_curr ≠ mcap_curr) then
    let fin_rate := rate fx_rates fin_curr in
    let mcap_rate := rate fx_rates mcap_curr in
    if Py.ltb 0 fin_rate && Py.ltb 0 mcap_rate then
      q ← Py.truediv net_val fin_rate;
      Some (q * mcap_rate)
    else Some net_val
  else Some net_val.

(** [c in ("GBp", "GBX")]. *)
Definition is_minor_unit (c : string) : bool :=
  bool_decide (c = "GBp"%string) || bool_decide (c = "GBX"%string).

Definition _convert_and_calc_pct (net_val market_cap : Q)
    (fin_curr trade_curr : string) (fx_rates : gmap string Q) : option Q :=
  let mcap_curr := trade_curr in
  let mcap_curr := if is_minor_unit mcap_curr then "GBP"%string else mcap_curr in
  net_val ← normalize net_val fin_curr mcap_curr fx_rates;
  q ← Py.truediv net_val market_cap;
  let pct := q * 100 in
  Some (Py.round (Py.max 0 (Py.min pct 100)) 4).

(** [d.get(outer, {}).get("total", dflt)]. *)
Definition get_total (d : option (gmap string Q)) (dflt : Q) : Q :=
  default dflt (default ∅ d !! "total"%string).

Definition compute_zakaatable_pcts (cd : company_data)
    (fx_rates : gmap string Q) : option (Q * Q * Q) :=
  if default false (cd_fallback cd) then
    let fb := default 25.0 (cd_zakaatable_pct cd) in
    Some (fb, fb, fb)
  else
    let market_cap := default 0 (cd_market_cap cd) in
    if negb (Py.truthy market_cap) || Py.leb market_cap 0 then
      Some (25.0, 25.0, 25.0)
    else
      let fin_curr := default "USD"%string (cd_financial_currency cd) in
      let trade_curr := default "USD"%string (cd_trading_currency cd) in
      let net_strict := default 0 (cd_net_zakaatable cd) in
      let net_broad := default net_strict (cd_net_zakaatable_broad cd) in
      let assets_only :=
        default
          (get_total (cd_assets_broad cd) (get_total (cd_assets cd) net_broad))
          (cd_net_zakaatable_assets_only cd) in
      pct_strict ←
        _convert_and_calc_pct net_strict market_cap fin_curr trade_curr fx_rates;
      pct_broad ←
        _convert_and_calc_pct net_broad market_cap fin_curr trade_curr fx_rates;
      pct_assets_only ←
        _convert_and_calc_pct assets_only market_cap fin_curr trade_curr
          fx_rates;
      Some (pct_strict, pct_broad, pct_assets_only).

(** One holding of [fund_holdings.json] and the file itself. *)
Record holding := {
  h_name : string;
  h_ticker : string;
  h_country : string;
  h_weight : Q;
}.

Record fund_holdings := {
  fund_name : string;
  benchmark : string;
  report_date : string;
  fund_cash_pct : Q;
  holdings : list holding;
}.

(** The [entry] dictionary of [compute_pension_data]. *)
Record pension_entry := {
  e_name : string;
  e_ticker : string;
  e_country : string;
  e_weight : Q;
  e_zakaatable_pct : Q;
  e_zakaatable_pct_broad : Q;
  e_zakaatable_pct_assets_only : Q;
  e_fallback : bool;
  e_error : option string;
  e_bs_date : string;
  e_market_cap : Q;
  e_trading_currency : string;
  e_financial_currency : string;
  e_assets : gmap string Q;
  e_assets_broad : gmap string Q;
  e_liabilities : gmap string Q;
  e_net_zakaatable : Q;
  e_net_zakaatable_broad : Q;
  e_net_zakaatable_assets_only : Q;
}.

(** [pension_data], without its [computed_at] time stamp. *)
Record pension_data := {
  p_fund_name : string;
  p_benchmark : string;
  p_report_date : string;
  p_fund_cash_pct : Q;
  fund_zakaatable_pct : Q;
  fund_zakaatable_pct_broad : Q;
  fund_zakaatable_pct_assets_only : Q;
  p_holdings : list pension_entry;
}.

(** The body of the loop over [fund_holdings["holdings"]]. *)
Definition pension_entry_of (balance_sheets : gmap string company_data)
    (fx_rates : gmap string Q) (h : holding) : option pension_entry :=
  let ticker := h_ticker h in
  let bs_data := default empty_company (balance_sheets !! ticker) in
  '(pct_strict, pct_broad, pct_assets_only) ←
    compute_zakaatable_pcts bs_data fx_rates;
  Some {|
    e_name := h_name h;
    e_ticker := ticker;
    e_country := h_country h;
    e_weight := h_weight h;
    e_zakaatable_pct := pct_strict;
    e_zakaatable_pct_broad := pct_broad;
    e_zakaatable_pct_assets_only := pct_assets_only;
    e_fallback := default true (cd_fallback bs_data);
    e_error := cd_error bs_data;
    e_bs_date := default "N/A"%string (cd_bs_date bs_data);
    e_market_cap := default 0 (cd_market_cap bs_data);
    e_trading_currency := default "USD"%string (cd_trading_currency bs_data);
    e_financial_currency :=
      default "USD"%string (cd_financial_currency bs_data);
    e_assets := default ∅ (cd_assets bs_data);
    e_assets_broad := default ∅ (cd_assets_broad bs_data);
    e_liabilities := default ∅ (cd_liabilities bs_data);
    e_net_zakaatable := default 0 (cd_net_zakaatable bs_data);
    e_net_zakaatable_broad := default 0 (cd_net_zakaatable_broad bs_data);
    e_net_zakaatable_assets_only :=
      default
        (get_total (cd_assets_broad bs_data) (get_total (cd_assets bs_data) 0))
        (cd_net_zakaatable_assets_only bs_data);
  |}.

(** [sum(r["weight"] * r[key] / 100 for r in results) + cash_contrib]. *)
Definition fund_pct (results : list pension_entry) (key : pension_entry → Q)
    (cash_contrib : Q) : Q :=
  Py.sum (map (λ r, e_weight r * key r / 100) results) + cash_contrib.

Definition compute_pension_data (fh : fund_holdings)
    (balance_sheets : gmap string company_data) (fx_rates : gmap string Q)
    : option pension_data :=
  results ← mapM (pension_entry_of balance_sheets fx_rates) (holdings fh);
  let cash_contrib := fund_cash_pct fh in
  let fund_pct_strict := fund_pct results e_zakaatable_pct cash_contrib in
  let fund_pct_broad := fund_pct results e_zakaatable_pct_broad cash_contrib in
  let fund_pct_assets_only :=
    fund_pct results e_zakaatable_pct_assets_only cash_contrib in
  Some {|
    p_fund_name := fund_name fh;
    p_benchmark := benchmark fh;
    p_report_date := report_date fh;
    p_fund_cash_pct := fund_cash_pct fh;
    fund_zakaatable_pct := Py.round fund_pct_strict 4;
    fund_zakaatable_pct_broad := Py.round fund_pct_broad 4;
    fund_zakaatable_pct_assets_only := Py.round fund_pct_assets_only 4;
    p_holdings := results;
  |}.

(** One holding of [isa_holdings.json]. *)
Record isa_holding := {
  ih_name : string;
  ih_ticker : string;
}.

(** The [entry] dictionary of [compute_isa_data]. *)
Record isa_entry := {
  ie_name : string;
  ie_ticker : string;
  ie_zakaatable_pct : Q;
  ie_zakaatable_pct_broad : Q;
  ie_zakaatable_pct_assets_only : Q;
  ie_current_price : Q;
  ie_price_gbp : Q;
  ie_trading_currency : string;
  ie_fallback : bool;
  ie_error : option string;
  ie_bs_date : string;
  ie_market_cap : Q;
  ie_financial_currency : string;
  ie_assets : gmap string Q;
  ie_assets_broad : gmap string Q;
  ie_liabilities : gmap string Q;
  ie_net_zakaatable : Q;
  ie_net_zakaatable_broad : Q;
  ie_net_zakaatable_assets_only : Q;
}.

(** Lines 439-448 of [compute_isa_data]: the local [price_gbp]. *)
Definition price_gbp (current_price : Q) (trade_curr : string)
    (fx_rates : gmap string Q) : option Q :=
  let gbp_rate := rate fx_rates "GBP" in
  let trade_rate := rate fx_rates trade_curr in
  price_gbp ←
    (if Py.ltb 0 trade_rate then
       q ← Py.truediv current_price trade_rate;
       Some (q * gbp_rate)
     else Some 0);
  if is_minor_unit trade_curr then Some (current_price / 100)
  else Some price_gbp.

(** The body of the loop over [isa_holdings["holdings"]]. *)
Definition isa_entry_of (balance_sheets : gmap string company_data)
    (fx_rates : gmap string Q) (h : isa_holding) : option isa_entry :=
  let ticker := ih_ticker h in
  let bs_data := default empty_company (balance_sheets !! ticker) in
  '(pct_strict, pct_broad, pct_assets_only) ←
    compute_zakaatable_pcts bs_data fx_rates;
  let current_price := default 0 (cd_current_price bs_data) in
  let trade_curr := default "USD"%string (cd_trading_currency bs_data) in
  price_gbp ← price_gbp current_price trade_curr fx_rates;
  Some {|
    ie_name := ih_name h;
    ie_ticker := ticker;
    ie_zakaatable_pct := pct_strict;
    ie_zakaatable_pct_broad := pct_broad;
    ie_zakaatable_pct_assets_only := pct_assets_only;
    ie_current_price := current_price;
    ie_price_gbp := Py.round price_gbp 4;
    ie_trading_currency := trade_curr;
    ie_fallback := default true (cd_fallback bs_data);
    ie_error := cd_error bs_data;
    ie_bs_date := default "N/A"%string (cd_bs_date bs_data);
    ie_market_cap := default 0 (cd_market_cap bs_data);
    ie_financial_currency :=
      default "USD"%string (cd_financial_currency bs_data);
    ie_assets := default ∅ (cd_assets bs_data);
    ie_assets_broad := default ∅ (cd_assets_broad bs_data);
    ie_liabilities := default ∅ (cd_liabilities bs_data);
    ie_net_zakaatable := default 0 (cd_net_zakaatable bs_data);
    ie_net_zakaatable_broad := default 0 (cd_net_zakaatable_broad bs_data);
    ie_net_zakaatable_assets_only :=
      default
        (get_total (cd_assets_broad bs_data) (get_total (cd_assets bs_data) 0))
        (cd_net_zakaatable_assets_only bs_data);
  |}.

(** [isa_data["holdings"]]. *)
Definition compute_isa_data (isa_holdings : list isa_holding)
    (balance_sheets : gmap string company_data) (fx_rates : gmap string Q)
    : option (list isa_entry) :=
  mapM (isa_entry_of balance_sheets fx_rates) isa_holdings.

(** ** Main *)

(** [list(dict.fromkeys(xs))]: the keys in the order of their first
    occurrence. *)
Definition dict_fromkeys (xs : list string) : list string :=
  fold_left (λ keys x, if bool_decide (x ∈ keys) then keys else keys ++ [x])
    xs [].

(** [main], from the two holdings files, the answer of the rate service
    and the answers of Yahoo, to the data of the two pages (the files, the
    printing and the HTML are left out).  [None] is an exception that ends
    the run. *)
Definition main (fh : fund_holdings) (isa_holdings : list isa_holding)
    (data : fx_response) (y : yahoo)
    : option (pension_data * list isa_entry) :=
  let fund_tickers := map h_ticker (holdings fh) in
  let isa_tickers := map ih_ticker isa_holdings in
  let all_tickers := dict_fromkeys (fund_tickers ++ isa_tickers) in
  fx_rates ← fetch_fx_rates data;
  let balance_sheets := fetch_all_balance_sheets all_tickers y in
  pension_data ← compute_pension_data fh balance_sheets fx_rates;
  isa_data ← compute_isa_data isa_holdings balance_sheets fx_rates;
  Some (pension_data, isa_data).

(** ** The conversion and the aggregation in binary64 *)

Module B64.

Local Open Scope float_scope.

(** [a / b] with a divisor that is a variable: [ZeroDivisionError] is
    [None]. *)
Definition truediv (a b : float) : option float :=
  if b =? 0 then None else Some (a / b).

(** [sum(xs)]: a left fold from [0]. *)
Definition sum (xs : list float) : float := fold_left PrimFloat.add xs 0.

(** The value of the finite float of mantissa [m] and exponent [e]. *)
Definition exact_value (m : positive) (e : Z) : Q :=
  match e with
  | Z0 => inject_Z (Zpos m)
  | Zpos p => inject_Z (Zpos m * 2 ^ Zpos p)
  | Zneg p => Qmake (Zpos m) (2 ^ p)
  end.

(** [round(x, ndigits)] for [ndigits >= 0]: the multiple of
    [10 ^ -ndigits] nearest to the value of [x], the even one on a tie, and
    then the float nearest to that decimal (the quotient of two integers,
    correctly rounded).  A zero, an infinity and a not-a-number come back
    as they are. *)
Definition round (x : float) (ndigits : nat) : float :=
  match Prim2SF x with
  | S754_finite s m e =>
      let p := match ndigits with
               | O => 1%positive
               | _ => Pos.pow 10 (Pos.of_nat ndigits)
               end in
      match Py.round_half_even (exact_value m e * inject_Z (Zpos p))%Q with
      | Zpos k =>
          SF2Prim (SFdiv prec emax (S754_finite s k 0) (S754_finite false p 0))
      | _ => SF2Prim (S754_zero s)
      end
  | _ => x
  end.

(** [d.get(k, 1)] on the rate table. *)
Definition rate (fx_rates : gmap string float) (code : string) : float :=
  default 1 (fx_rates !! code).

(** Lines 307-311 of [_convert_and_calc_pct]. *)
Definition normalize (net_val : float) (fin_curr mcap_curr : string)
    (fx_rates : gmap string float) : option float :=
  if bool_decide (fin_curr ≠ mcap_curr) then
    let fin_rate := rate fx_rates fin_curr in
    let mcap_rate := rate fx_rates mcap_curr in
    if (0 <? fin_rate) && (0 <? mcap_rate) then
      q ← truediv net_val fin_rate;
      Some (q * mcap_rate)
    else Some net_val
  else Some net_val.

(** What lines 394-407 read of an entry of [results]. *)
Record entry := {
  weight : float;
  zakaatable_pct : float;
  zakaatable_pct_broad : float;
  zakaatable_pct_assets_only : float;
}.

(** [sum(r["weight"] * r[key] / 100 for r in results) + cash_contrib]. *)
Definition fund_pct (results : list entry) (key : entry → float)
    (cash_contrib : float) : float :=
  sum (map (λ r, weight r * key r / 100) results) + cash_contrib.





End B64.

(** ** Notions the properties are stated with *)

(** [k] is the integer nearest to [n / d]; on a tie, the even one. *)
Definition nearest_even (n : Z) (d : positive) (k : Z) : Prop :=
  ((2 * k - 1) * Zpos d < 2 * n < (2 * k + 1) * Zpos d)%Z
  ∨ ((2 * n = (2 * k - 1) * Zpos d)%Z ∧ Z.even k = true)
  ∨ ((2 * n = (2 * k + 1) * Zpos d)%Z ∧ Z.even k = true).

(** A percentage of the closed interval [[0, 100]]. *)
Definition in_range (p : Q) : Prop := 0 <= p ∧ p <= 100.

(** A name with its spaces dropped. *)
Fixpoint drop_spaces (name : string) : string :=
  match name with
  | EmptyString => EmptyString
  | String ch rest =>
      if Ascii.eqb ch " "%char then drop_spaces rest
      else String ch (drop_spaces rest)
  end.

(** A record whose recorded percentage, when it is flagged fallback, is a
    percentage. *)
Definition sound_fallback (cd : company_data) : Prop :=
  default false (cd_fallback cd) = true →
  in_range (default 25.0 (cd_zakaatable_pct cd)).

(** The record the loop of [fetch_all_balance_sheets] stores for a ticker:
    the one [fetch_company] builds, or the one of the exception. *)
Definition record_of (y : yahoo) (t : string) : company_data :=
  match y t with
  | inl answer => fetch_company t answer
  | inr e => exception_record t e
  end.

(** The record is flagged fallback. *)
Definition is_fallback (cd : company_data) : bool :=
  default false (cd_fallback cd).

(** ** Concrete inputs *)


(** A rate table with the pound at 0.8 per dollar. *)
Definition gbp_usd_rates : gmap string Q :=
  list_to_map [("USD"%string, 1); ("GBP"%string, 0.8)].

(** The company of the specification's first scenario: cash 100,
    receivables 20, payables 30 (under the space-separated spelling),
    market capitalisation 1000, all in dollars. *)
Definition scenario_1_sheet : gmap string cell :=
  list_to_map [
    ("CashCashEquivalentsAndShortTermInvestments"%string, CNum 100);
    ("Receivables"%string, CNum 20);
    ("Inventory"%string, CNaN);
    ("Accounts Payable"%string, CNum 30)].

Definition usd_info (market_cap : Q) : info_dict :=
  {| marketCap := Some market_cap; currency := Some "USD"%string;
     financialCurrency := Some "USD"%string; currentPrice := None;
     previousClose := None; sharesOutstanding := None;
     longName := None; shortName := None |}.

Definition scenario_1 : yf_ticker :=
  {| info := Some (usd_info 1000);
     quarterly_balance_sheet :=
       Some [("2024-12-31"%string, scenario_1_sheet)];
     balance_sheet := None |}.

(** A second company, with cash 500 and nothing else, at the same market
    capitalisation. *)
Definition cash_rich : yf_ticker :=
  {| info := Some (usd_info 1000);
     quarterly_balance_sheet := None;
     balance_sheet :=
       Some [("2023-12-31"%string,
              list_to_map [("CashAndCashEquivalents"%string, CNum 500)])] |}.

(** A company whose balance sheet reports none of the core line items. *)
Definition goodwill_only : yf_ticker :=
  {| info := None;
     quarterly_balance_sheet :=
       Some [("2024-12-31"%string,
              list_to_map [("Goodwill"%string, CNum 5);
                           ("Inventory"%string, CNaN)])];
     balance_sheet := None |}.

(** The fund of the specification's third scenario: two holdings with
    weights 60 and 30 and a cash allocation of 10, over the balance sheets
    of [scenario_1] and [cash_rich]. *)
Definition scenario_3 : fund_holdings :=
  {| fund_name := "Fund"%string; benchmark := "Index"%string;
     report_date := "2024-12-31"%string; fund_cash_pct := 10;
     holdings := [
       {| h_name := "Acme"%string; h_ticker := "ACME"%string;
          h_country := "US"%string; h_weight := 60 |};
       {| h_name := "Cash Rich"%string; h_ticker := "CASH"%string;
          h_country := "US"%string; h_weight := 30 |}] |}.

Definition scenario_3_sheets : gmap string company_data :=
  list_to_map [("ACME"%string, fetch_company "ACME" scenario_1);
               ("CASH"%string, fetch_company "CASH" cash_rich)].

(** A share quoted in pence at 0.123, without balance sheet. *)
Definition penny_share : yf_ticker :=
  {| info := Some
       {| marketCap := None; currency := Some "GBp"%string;
          financialCurrency := Some "GBP"%string;
          currentPrice := Some 0.123; previousClose := None;
          sharesOutstanding := None; longName := None; shortName := None |};
     quarterly_balance_sheet := None;
     balance_sheet := None |}.


Definition penny_holding : isa_holding :=
  {| ih_name := "Penny"%string; ih_ticker := "PNY.L"%string |}.

(** The balance sheet of [scenario_1] for a ticker without market data. *)
Definition no_market_data : yf_ticker :=
  {| info := None;
     quarterly_balance_sheet :=
       Some [("2024-12-31"%string, scenario_1_sheet);
             ("2024-09-30"%string, ∅)];
     balance_sheet := Some [("2023-12-31"%string, scenario_1_sheet)] |}.

(** A company whose payables exceed its cash. *)
Definition indebted : yf_ticker :=
  {| info := Some (usd_info 1000);
     quarterly_balance_sheet :=
       Some [("2024-12-31"%string,
              list_to_map [("CashAndCashEquivalents"%string, CNum 50);
                           ("AccountsPayable"%string, CNum 80)])];
     balance_sheet := None |}.

(** The answer of the rate service with the rates of [gbp_usd_rates]. *)
Definition api_success : fx_response :=
  {| api_result := Some "success"%string; api_rates := Some gbp_usd_rates |}.

(** A Yahoo that knows the companies above and fails on the others. *)
Definition yahoo_sample : yahoo :=
  λ t, if bool_decide (t = "ACME"%string) then inl scenario_1
       else if bool_decide (t = "CASH"%string) then inl cash_rich
       else if bool_decide (t = "PNY.L"%string) then inl penny_share
       else inr "HTTP Error 404"%string.

(** A ticker for which Yahoo gives the number of shares and the price but
    no market capitalisation. *)
Definition shares_only : yf_ticker :=
  {| info := Some
       {| marketCap := None; currency := Some "USD"%string;
          financialCurrency := None; currentPrice := Some 12.5;
          previousClose := Some 12; sharesOutstanding := Some 80;
          longName := None; shortName := Some "Shares"%string |};
     quarterly_balance_sheet := None;
     balance_sheet :=
       Some [("2023-12-31"%string, scenario_1_sheet)] |}.

(** A company quoted in pence for which Yahoo names no financial currency:
    cash 50, market capitalisation 1000. *)
Definition pence_reporter : yf_ticker :=
  {| info := Some
       {| marketCap := Some 1000; currency := Some "GBp"%string;
          financialCurrency := None; currentPrice := None;
          previousClose := None; sharesOutstanding := None;
          longName := None; shortName := None |};
     quarterly_balance_sheet :=
       Some [("2024-12-31"%string,
              list_to_map [("CashAndCashEquivalents"%string, CNum 50)])];
     balance_sheet := None |}.

(** The table [fetch_fx_rates] builds from [gbp_usd_rates]. *)
Definition pence_rates : gmap string Q :=
  list_to_map [("USD"%string, 1); ("GBP"%string, 0.8);
               ("GBp"%string, 0.8 * 100); ("GBX"%string, 0.8 * 100)].

(** * Properties *)

(** ** Comparisons, [max], [min] and [sum] *)

Lemma ltb_lt a b : Py.ltb a b = true ↔ a < b.
Proof.
  unfold Py.ltb. rewrite negb_true_iff, <- not_true_iff_false, Qle_bool_iff.
  split; [apply Qnot_le_lt | apply Qlt_not_le].
Qed.

Lemma ltb_ge a b : Py.ltb a b = false ↔ b <= a.
Proof.
  unfold Py.ltb. rewrite negb_false_iff. apply Qle_bool_iff.
Qed.

Lemma leb_le a b : Py.leb a b = true ↔ a <= b.
Proof. apply Qle_bool_iff. Qed.

Lemma eqb_eq a b : Py.eqb a b = true ↔ a == b.
Proof. apply Qeq_bool_iff. Qed.

Lemma eqb_neq a b : Py.eqb a b = false ↔ ¬ a == b.
Proof.
  rewrite <- not_true_iff_false. unfold Py.eqb. by rewrite Qeq_bool_iff.
Qed.

Lemma max_lower a b : a <= Py.max a b ∧ b <= Py.max a b.
Proof.
  unfold Py.max. destruct (Py.ltb a b) eqn:E.
  - apply ltb_lt in E. split; [by apply Qlt_le_weak | apply Qle_refl].
  - apply ltb_ge in E. split; [apply Qle_refl | done].
Qed.

Lemma max_cases a b : Py.max a b = a ∨ Py.max a b = b.
Proof. unfold Py.max. destruct (Py.ltb a b); auto. Qed.

Lemma min_upper a b : Py.min a b <= a ∧ Py.min a b <= b.
Proof.
  unfold Py.min. destruct (Py.ltb b a) eqn:E.
  - apply ltb_lt in E. split; [by apply Qlt_le_weak | apply Qle_refl].
  - apply ltb_ge in E. split; [apply Qle_refl | done].
Qed.

Lemma min_cases a b : Py.min a b = a ∨ Py.min a b = b.
Proof. unfold Py.min. destruct (Py.ltb b a); auto. Qed.

Lemma max_mono a a' b : a <= a' → Py.max a b <= Py.max a' b.
Proof.
  intros H. destruct (max_lower a' b) as [H1 H2].
  destruct (max_cases a b) as [-> | ->]; [by apply Qle_trans with a' | done].
Qed.

Lemma max_mono_r a b b' : b <= b' → Py.max a b <= Py.max a b'.
Proof.
  intros H. destruct (max_lower a b') as [H1 H2].
  destruct (max_cases a b) as [-> | ->]; [done | by apply Qle_trans with b'].
Qed.

Lemma min_mono a a' b : a <= a' → Py.min a b <= Py.min a' b.
Proof.
  intros H. destruct (min_upper a b) as [H1 H2].
  destruct (min_cases a' b) as [-> | ->]; [by apply Qle_trans with a | done].
Qed.

(** The clamp of [_convert_and_calc_pct] lands in [[0, 100]] and is
    monotone. *)
Lemma clamp_range pct :
  0 <= Py.max 0 (Py.min pct 100) ∧ Py.max 0 (Py.min pct 100) <= 100.
Proof.
  split; [apply max_lower |].
  destruct (max_cases 0 (Py.min pct 100)) as [-> | ->]; [done |].
  apply min_upper.
Qed.

Lemma clamp_mono p p' :
  p <= p' → Py.max 0 (Py.min p 100) <= Py.max 0 (Py.min p' 100).
Proof. intros H. by apply max_mono_r, min_mono. Qed.

(** [sum] as a right fold. *)
Lemma fold_left_Qplus xs acc :
  fold_left Qplus xs acc == acc + fold_right Qplus 0 xs.
Proof.
  revert acc. induction xs as [| x xs IH]; intros acc; simpl.
  - ring.
  - rewrite IH. ring.
Qed.

Lemma sum_fold_right xs : Py.sum xs == fold_right Qplus 0 xs.
Proof. unfold Py.sum. rewrite fold_left_Qplus. ring. Qed.

(** ** Rounding *)

Lemma round_half_even_spec x :
  nearest_even (Qnum x) (Qden x) (Py.round_half_even x).
Proof.
  unfold Py.round_half_even, nearest_even.
  destruct x as [n d]; simpl.
  pose proof (Z.div_mod n (Zpos d) ltac:(lia)) as Hdm.
  pose proof (Z.mod_pos_bound n (Zpos d) ltac:(lia)) as Hb.
  set (f := (n / Zpos d)%Z) in *. set (r := (n mod Zpos d)%Z) in *.
  destruct (Z.compare_spec (2 * r) (Zpos d)) as [E | E | E].
  - destruct (Z.even f) eqn:Ev.
    + right; right. split; [nia | done].
    + right; left. split; [nia |].
      rewrite Z.even_add, Ev. done.
  - left. nia.
  - left. nia.
Qed.

(** The nearest integer is unique and grows with the number: two ties one
    apart cannot both be even. *)
Lemma nearest_even_mono n1 d1 k1 n2 d2 k2 :
  (n1 * Zpos d2 <= n2 * Zpos d1)%Z →
  nearest_even n1 d1 k1 → nearest_even n2 d2 k2 → (k1 <= k2)%Z.
Proof.
  intros Hle H1 H2.
  destruct (Z_le_gt_dec k1 k2) as [|Hgt]; [done | exfalso].
  assert (Hk : (k2 + 1 <= k1)%Z) by lia.
  assert (L1 : ((2 * k1 - 1) * Zpos d1 <= 2 * n1)%Z)
    by (destruct H1 as [? | [[? _] | [? _]]]; nia).
  assert (U2 : (2 * n2 <= (2 * k2 + 1) * Zpos d2)%Z)
    by (destruct H2 as [? | [[? _] | [? _]]]; nia).
  assert (A : ((2 * k1 - 1) * (Zpos d1 * Zpos d2)
               <= (2 * k2 + 1) * (Zpos d1 * Zpos d2))%Z) by nia.
  assert (B : (k1 = k2 + 1)%Z) by nia.
  subst k1.
  assert (T1 : (2 * n1 = (2 * (k2 + 1) - 1) * Zpos d1)%Z) by nia.
  assert (T2 : (2 * n2 = (2 * k2 + 1) * Zpos d2)%Z) by nia.
  assert (E1 : Z.even (k2 + 1) = true).
  { destruct H1 as [? | [[? ?] | [? ?]]]; [nia | done | nia]. }
  assert (E2 : Z.even k2 = true).
  { destruct H2 as [? | [[? ?] | [? ?]]]; [nia | nia | done]. }
  rewrite Z.even_add, E2 in E1. done.
Qed.

Lemma round_half_even_mono x y :
  x <= y → (Py.round_half_even x <= Py.round_half_even y)%Z.
Proof.
  intros H. eapply nearest_even_mono; [exact H | apply round_half_even_spec ..].
Qed.

Lemma round_half_even_proper x y :
  x == y → Py.round_half_even x = Py.round_half_even y.
Proof.
  intros H. apply Z.le_antisymm; apply round_half_even_mono; rewrite H;
    apply Qle_refl.
Qed.

Lemma round_mono x y n : x <= y → Py.round x n <= Py.round y n.
Proof.
  intros H. unfold Py.round.
  set (p := match n with O => 1%positive | _ => Pos.pow 10 (Pos.of_nat n) end).
  unfold Qle; simpl. apply Z.mul_le_mono_nonneg_r; [lia |].
  apply round_half_even_mono, Qmult_le_compat_r; [done |].
  unfold Qle; simpl; lia.
Qed.

(** Rounding sees the value of a number only, not the fraction that
    represents it. *)
Lemma round_proper x y n : x == y → Py.round x n = Py.round y n.
Proof.
  intros H. unfold Py.round. f_equal.
  apply round_half_even_proper. by rewrite H.
Qed.

Lemma round_in_range x : in_range x → in_range (Py.round x 4).
Proof.
  intros [H0 H1]. split.
  - apply Qle_trans with (Py.round 0 4); [by vm_compute | by apply round_mono].
  - apply Qle_trans with (Py.round 100 4); [by apply round_mono | by vm_compute].
Qed.

(** ** The currency normalizer *)

Lemma truediv_Some a b : ¬ b == 0 → Py.truediv a b = Some (a / b).
Proof.
  intros H. unfold Py.truediv. apply eqb_neq in H. by rewrite H.
Qed.

Lemma pos_nonzero b : 0 < b → ¬ b == 0.
Proof. intros H E. rewrite E in H. by apply Qlt_irrefl in H. Qed.

(** What [normalize] returns, by cases on its two guards. *)
Lemma normalize_cases x f m fx :
  (f ≠ m ∧ 0 < rate fx f ∧ 0 < rate fx m
   ∧ normalize x f m fx = Some (x / rate fx f * rate fx m))
  ∨ ((f = m ∨ ¬ (0 < rate fx f ∧ 0 < rate fx m))
     ∧ normalize x f m fx = Some x).
Proof.
  unfold normalize. case_bool_decide as Hne.
  - destruct (Py.ltb 0 (rate fx f)) eqn:Ef; simpl.
    + destruct (Py.ltb 0 (rate fx m)) eqn:Em; simpl.
      * apply ltb_lt in Ef, Em. left. repeat split; try done.
        by rewrite truediv_Some by by apply pos_nonzero.
      * right. split; [right | done]. intros [_ H%ltb_lt]. congruence.
    + right. split; [right | done]. intros [H%ltb_lt _]. congruence.
  - right. split; [left | done].
    destruct (decide (f = m)) as [| Hn]; [done | by destruct Hne].
Qed.

Lemma normalize_refl x c fx : normalize x c c fx = Some x.
Proof.
  destruct (normalize_cases x c c fx) as [(Hne & _) | [_ H]]; done.
Qed.

Lemma normalize_total x f m fx : ∃ y, normalize x f m fx = Some y.
Proof. destruct (normalize_cases x f m fx) as [(_ & _ & _ & ->) | [_ ->]]; eauto. Qed.

Lemma normalize_mono x x' f m fx y y' :
  x <= x' → normalize x f m fx = Some y → normalize x' f m fx = Some y' →
  y <= y'.
Proof.
  intros H.
  destruct (normalize_cases x f m fx) as [(Hne & Hf & Hm & ->) | [Hc ->]];
    destruct (normalize_cases x' f m fx) as [(Hne' & Hf' & Hm' & ->) | [Hc' ->]];
    intros [= <-] [= <-]; try done.
  - apply Qmult_le_compat_r; [| by apply Qlt_le_weak].
    unfold Qdiv. apply Qmult_le_compat_r; [done |].
    by apply Qlt_le_weak, Qinv_lt_0_compat.
  - destruct Hc' as [? | Hc']; [done | by destruct Hc'].
  - destruct Hc as [? | Hc]; [done | by destruct Hc].
Qed.

(** ** The percentage engine *)

(** With a market capitalisation that is not zero, [_convert_and_calc_pct]
    returns, and what it returns is the rounded clamp of the ratio. *)
Lemma convert_and_calc_pct_Some net_val market_cap fin_curr trade_curr fx :
  ¬ market_cap == 0 →
  ∃ v, normalize net_val fin_curr
         (if is_minor_unit trade_curr then "GBP"%string else trade_curr) fx
       = Some v
    ∧ _convert_and_calc_pct net_val market_cap fin_curr trade_curr fx
      = Some (Py.round (Py.max 0 (Py.min (v / market_cap * 100) 100)) 4).
Proof.
  intros Hm. unfold _convert_and_calc_pct.
  destruct (normalize_total net_val fin_curr
    (if is_minor_unit trade_curr then "GBP"%string else trade_curr) fx)
    as [v Hv].
  exists v. split; [done |]. rewrite Hv. simpl.
  by rewrite truediv_Some.
Qed.

Lemma convert_and_calc_pct_range net_val market_cap fin_curr trade_curr fx :
  ¬ market_cap == 0 →
  ∃ p, _convert_and_calc_pct net_val market_cap fin_curr trade_curr fx = Some p
    ∧ in_range p.
Proof.
  intros Hm.
  destruct (convert_and_calc_pct_Some net_val market_cap fin_curr trade_curr
              fx Hm) as (v & _ & ->).
  eexists. split; [done |]. apply round_in_range, clamp_range.
Qed.

Lemma convert_and_calc_pct_mono v v' market_cap fin_curr trade_curr fx :
  0 < market_cap → v <= v' →
  ∃ p p', _convert_and_calc_pct v market_cap fin_curr trade_curr fx = Some p
    ∧ _convert_and_calc_pct v' market_cap fin_curr trade_curr fx = Some p'
    ∧ p <= p'.
Proof.
  intros Hm Hv.
  destruct (convert_and_calc_pct_Some v market_cap fin_curr trade_curr fx
              (pos_nonzero _ Hm)) as (y & Hy & ->).
  destruct (convert_and_calc_pct_Some v' market_cap fin_curr trade_curr fx
              (pos_nonzero _ Hm)) as (y' & Hy' & ->).
  do 2 eexists. split; [done |]. split; [done |].
  apply round_mono, clamp_mono.
  apply Qmult_le_compat_r; [| done].
  unfold Qdiv. apply Qmult_le_compat_r.
  - by eapply normalize_mono.
  - by apply Qlt_le_weak, Qinv_lt_0_compat.
Qed.

(** The two early returns of [compute_zakaatable_pcts], and its main path. *)
Lemma pcts_fallback cd fx :
  default false (cd_fallback cd) = true →
  compute_zakaatable_pcts cd fx
  = Some (default 25.0 (cd_zakaatable_pct cd),
          default 25.0 (cd_zakaatable_pct cd),
          default 25.0 (cd_zakaatable_pct cd)).
Proof. intros H. unfold compute_zakaatable_pcts. by rewrite H. Qed.

Lemma pcts_degenerate cd fx :
  default false (cd_fallback cd) = false →
  default 0 (cd_market_cap cd) <= 0 →
  compute_zakaatable_pcts cd fx = Some (25.0, 25.0, 25.0).
Proof.
  intros Hf Hm. unfold compute_zakaatable_pcts. rewrite Hf.
  apply leb_le in Hm. rewrite Hm. by rewrite orb_true_r.
Qed.

Lemma market_cap_guard m :
  0 < m → negb (Py.truthy m) || Py.leb m 0 = false.
Proof.
  intros H. apply orb_false_iff. split.
  - unfold Py.truthy. rewrite negb_involutive. by apply eqb_neq, pos_nonzero.
  - apply not_true_iff_false. rewrite leb_le. by apply Qlt_not_le.
Qed.

Lemma market_cap_guard_inv m :
  negb (Py.truthy m) || Py.leb m 0 = false → 0 < m.
Proof.
  intros [_ H]%orb_false_iff. apply Qnot_le_lt. rewrite <- leb_le. congruence.
Qed.

(** The main path of [compute_zakaatable_pcts]: a record that is not
    flagged fallback, with a market capitalisation above zero. *)
Lemma pcts_main_path cd fx :
  default false (cd_fallback cd) = false →
  negb (Py.truthy (default 0 (cd_market_cap cd)))
  || Py.leb (default 0 (cd_market_cap cd)) 0 = false →
  ∃ s b a, compute_zakaatable_pcts cd fx = Some (s, b, a)
    ∧ in_range s ∧ in_range b ∧ in_range a.
Proof.
  intros Ef Eg. unfold compute_zakaatable_pcts. rewrite Ef, Eg.
  apply market_cap_guard_inv, pos_nonzero in Eg.
  set (net_strict := default 0 (cd_net_zakaatable cd)).
  set (net_broad := default net_strict (cd_net_zakaatable_broad cd)).
  set (assets_only := default _ (cd_net_zakaatable_assets_only cd)).
  set (fc := default "USD"%string (cd_financial_currency cd)).
  set (tc := default "USD"%string (cd_trading_currency cd)).
  destruct (convert_and_calc_pct_range net_strict _ fc tc fx Eg)
    as (s & -> & Hs).
  destruct (convert_and_calc_pct_range net_broad _ fc tc fx Eg)
    as (b & -> & Hb).
  destruct (convert_and_calc_pct_range assets_only _ fc tc fx Eg)
    as (a & -> & Ha).
  simpl. by exists s, b, a.
Qed.

(** ** C5, C8: the normalizer *)

(** C8.  A code absent from the table has rate 1; when either rate is zero
    or negative the amount comes back unchanged; and the normalizer always
    returns (no [ZeroDivisionError]): either the amount itself, or the
    converted amount, and then both rates are strictly positive. *)
Theorem normalize_is_safe (x : Q) (f m : string) (fx : gmap string Q) :
  (fx !! f = None → rate fx f = 1)
  ∧ (rate fx f <= 0 ∨ rate fx m <= 0 → normalize x f m fx = Some x)
  ∧ (∃ y, normalize x f m fx = Some y
       ∧ (y = x ∨ (0 < rate fx f ∧ 0 < rate fx m
                    ∧ y = x / rate fx f * rate fx m))).
Proof.
  split; [| split].
  - intros H. unfold rate. by rewrite H.
  - intros H.
    destruct (normalize_cases x f m fx) as [(_ & Hf & Hm & _) | [_ Hy]];
      [| done].
    destruct H as [H | H]; exfalso;
      [apply (Qlt_not_le _ _ Hf H) | apply (Qlt_not_le _ _ Hm H)].
  - destruct (normalize_cases x f m fx) as [(_ & Hf & Hm & ->) | [_ ->]];
      eexists; split; eauto.
Qed.

Lemma normalize_is_safe_witness :
  rate gbp_usd_rates "JPY" = 1
  ∧ normalize 500 "EUR" "USD" (<["EUR"%string := -2]> gbp_usd_rates) = Some 500.
Proof.
  destruct (normalize_is_safe 500 "EUR" "USD"
              (<["EUR"%string := -2]> gbp_usd_rates)) as (_ & H & _).
  destruct (normalize_is_safe 500 "JPY" "USD" gbp_usd_rates) as (H1 & _).
  split.
  - apply H1. reflexivity.
  - apply H. left. vm_compute. discriminate.
Defined.

(** C5 as stated fails for the codes [GBp] and [GBX]: lines 304-305 replace
    the target by [GBP] before the comparison of line 307, so an amount
    reported in pence for a share quoted in pence is converted.  For a
    company quoted in [GBp] for which Yahoo names no financial currency
    (line 114 then takes the trading currency), cash 50 and a market
    capitalisation of 1000 give 0.05 per cent, where the amount itself
    gives 5 per cent. *)
Lemma pence_to_pence_is_converted :
  fetch_fx_rates api_success = Some pence_rates
  ∧ cd_financial_currency (fetch_company "PNC.L" pence_reporter)
    = Some "GBp"%string
  ∧ cd_trading_currency (fetch_company "PNC.L" pence_reporter)
    = Some "GBp"%string
  ∧ compute_zakaatable_pcts (fetch_company "PNC.L" pence_reporter) pence_rates
    = Some (0.0500, 0.0500, 0.0500)
  ∧ _convert_and_calc_pct 50 1000 "GBp" "GBp" pence_rates = Some 0.0500
  ∧ Py.round (Py.max 0 (Py.min (50 / 1000 * 100) 100)) 4 = 5.0000
  ∧ ¬ 0.0500 == 5.0000.
Proof.
  split; [by vm_compute |]. split; [by vm_compute |].
  split; [by vm_compute |]. split; [by vm_compute |].
  split; [by vm_compute |]. split; [by vm_compute |].
  discriminate.
Qed.

(** C5, amended.  For every amount, every rate table and every currency
    code other than [GBp] and [GBX], an amount reported in the currency the
    share trades in is not converted: the percentage is computed from the
    amount itself.  For [GBp] and [GBX] the amount is normalized from that
    code to [GBP]: it is converted, to [x / rate(c) * rate(GBP)], when both
    rates are strictly positive. *)
Theorem same_currency_unchanged (x mc : Q) (c : string) (fx : gmap string Q) :
  ¬ mc == 0 →
  (is_minor_unit c = false →
   normalize x c (if is_minor_unit c then "GBP"%string else c) fx = Some x
   ∧ _convert_and_calc_pct x mc c c fx
     = Some (Py.round (Py.max 0 (Py.min (x / mc * 100) 100)) 4))
  ∧ (is_minor_unit c = true →
     ∃ v, normalize x c "GBP" fx = Some v
       ∧ (0 < rate fx c → 0 < rate fx "GBP" →
          v = x / rate fx c * rate fx "GBP")
       ∧ _convert_and_calc_pct x mc c c fx
         = Some (Py.round (Py.max 0 (Py.min (v / mc * 100) 100)) 4)).
Proof.
  intros Hmc. split; intros Hc.
  - unfold _convert_and_calc_pct. rewrite Hc, normalize_refl.
    split; [done |]. simpl. by rewrite truediv_Some.
  - assert (Hne : c ≠ "GBP"%string) by (intros ->; discriminate).
    unfold _convert_and_calc_pct. rewrite Hc.
    destruct (normalize_cases x c "GBP" fx) as [(_ & Hf & Hm & E) | [Hn E]];
      rewrite E; eexists; (split; [done |]); simpl;
      rewrite truediv_Some by done; (split; [| done]).
    + done.
    + intros Hf Hm. destruct Hn as [Hn | Hn]; [done | by destruct Hn].
Qed.

Lemma same_currency_unchanged_witness :
  (normalize 50 "USD" "USD" pence_rates = Some 50
   ∧ _convert_and_calc_pct 50 1000 "USD" "USD" pence_rates
     = Some (Py.round (Py.max 0 (Py.min (50 / 1000 * 100) 100)) 4))
  ∧ (∃ v, normalize 50 "GBp" "GBP" pence_rates = Some v
       ∧ v = 50 / rate pence_rates "GBp" * rate pence_rates "GBP"
       ∧ _convert_and_calc_pct 50 1000 "GBp" "GBp" pence_rates
         = Some (Py.round (Py.max 0 (Py.min (v / 1000 * 100) 100)) 4)).
Proof.
  split.
  - apply (same_currency_unchanged 50 1000 "USD" pence_rates);
      [discriminate | reflexivity].
  - destruct (same_currency_unchanged 50 1000 "GBp" pence_rates)
      as (_ & H); [discriminate |].
    destruct H as (v & Hv & Hconv & Hp); [reflexivity |].
    exists v. split; [done |]. split; [| done].
    apply Hconv; reflexivity.
Defined.

(** ** C1, C2: the percentages of one company *)







(** ** C3, C10: from the balance sheet to the percentages *)

Lemma choose_balance_sheet_nonempty t df ty :
  choose_balance_sheet t = (Some df, ty) → df_empty df = false.
Proof.
  unfold choose_balance_sheet.
  destruct (quarterly_balance_sheet t) as [qbs |].
  - destruct (df_empty qbs) eqn:Eq; simpl.
    + destruct (balance_sheet t) as [abs_ |]; [| done].
      destruct (df_empty abs_) eqn:Ea; simpl; [done |]. by intros [= <- _].
    + by intros [= <- _].
  - destruct (balance_sheet t) as [abs_ |]; [| done].
    destruct (df_empty abs_) eqn:Ea; simpl; [done |]. by intros [= <- _].
Qed.

(** The record [fetch_company] builds once a balance sheet is chosen. *)
Lemma fetch_company_on_sheet sym t bs_date latest rest bs_type :
  choose_balance_sheet t = (Some ((bs_date, latest) :: rest), bs_type) →
  ∃ long_name market_cap trading_currency financial_currency current_price,
    (all_zero (resolve_line_items latest) = true
     → fetch_company sym t
       = fallback_record sym long_name market_cap trading_currency
           financial_currency current_price
           "Balance sheet data all empty/NaN")
    ∧ (all_zero (resolve_line_items latest) = false
       → cd_fallback (fetch_company sym t) = Some false
         ∧ cd_market_cap (fetch_company sym t) = Some market_cap
         ∧ cd_net_zakaatable (fetch_company sym t)
           = Some (net_zakaatable_strict (resolve_line_items latest))
         ∧ cd_net_zakaatable_broad (fetch_company sym t)
           = Some (net_zakaatable_broad (resolve_line_items latest))
         ∧ cd_net_zakaatable_assets_only (fetch_company sym t)
           = Some (net_zakaatable_assets_only (resolve_line_items latest))).
Proof.
  intros H. pose proof (choose_balance_sheet_nonempty _ _ _ H) as Hne.
  unfold fetch_company. rewrite H. cbn [default from_option id].
  rewrite Hne. do 5 eexists. split; intros ->; [reflexivity |].
  repeat split; reflexivity.
Qed.

(** C3 as stated names a reason the code does not record: the error of the
    record is another string. *)
Lemma all_empty_reason_differs :
  all_zero (resolve_line_items
    (list_to_map [("Goodwill"%string, CNum 5); ("Inventory"%string, CNaN)]))
  = true
  ∧ cd_fallback (fetch_company "GWL" goodwill_only) = Some true
  ∧ cd_error (fetch_company "GWL" goodwill_only)
    = Some "Balance sheet data all empty/NaN"%string
  ∧ "Balance sheet data all empty/NaN"%string
    ≠ "balance sheet data all empty"%string.
Proof.
  split; [by vm_compute |]. split; [by vm_compute |].
  split; [by vm_compute | discriminate].
Qed.

(** C3, amended.  When the six core line items of the chosen balance sheet
    (cash and short-term investments, receivables, inventory, other current
    assets, payables, current debt) all resolve to 0, [fetch_company] marks
    the company fallback with the error "Balance sheet data all empty/NaN",
    and all three percentages computed from the record are 25.0. *)
Theorem all_zero_is_fallback (sym : string) (t : yf_ticker)
    (fx : gmap string Q) (bs_date : string) (latest : gmap string cell)
    (rest : dataframe) (bs_type : string) :
  choose_balance_sheet t = (Some ((bs_date, latest) :: rest), bs_type) →
  cash_sti (resolve_line_items latest) == 0 →
  receivables (resolve_line_items latest) == 0 →
  inventory (resolve_line_items latest) == 0 →
  other_current (resolve_line_items latest) == 0 →
  payables (resolve_line_items latest) == 0 →
  current_debt (resolve_line_items latest) == 0 →
  cd_fallback (fetch_company sym t) = Some true
  ∧ cd_error (fetch_company sym t)
    = Some "Balance sheet data all empty/NaN"%string
  ∧ compute_zakaatable_pcts (fetch_company sym t) fx
    = Some (25.0, 25.0, 25.0).
Proof.
  intros H H1 H2 H3 H4 H5 H6.
  destruct (fetch_company_on_sheet sym t _ _ _ _ H)
    as (ln & mc & tc & fc & cp & Hz & _).
  rewrite Hz; [done |].
  unfold all_zero. by rewrite !(proj2 (eqb_eq _ _)).
Qed.

Lemma all_zero_is_fallback_witness :
  cd_fallback (fetch_company "GWL" goodwill_only) = Some true
  ∧ cd_error (fetch_company "GWL" goodwill_only)
    = Some "Balance sheet data all empty/NaN"%string
  ∧ compute_zakaatable_pcts (fetch_company "GWL" goodwill_only) gbp_usd_rates
    = Some (25.0, 25.0, 25.0).
Proof.
  apply (all_zero_is_fallback "GWL" goodwill_only gbp_usd_rates "2024-12-31"
           (list_to_map [("Goodwill"%string, CNum 5);
                         ("Inventory"%string, CNaN)]) [] "quarterly");
    reflexivity.
Defined.

(** The three net amounts of a balance sheet are ordered when the totals
    are not negative. *)
Lemma nets_ordered latest :
  0 <= nc_liquid_total (resolve_line_items latest) →
  0 <= total_deductions (resolve_line_items latest) →
  0 <= gross_zakaatable (resolve_line_items latest) →
  net_zakaatable_strict (resolve_line_items latest)
  <= net_zakaatable_broad (resolve_line_items latest)
  ∧ net_zakaatable_broad (resolve_line_items latest)
    <= net_zakaatable_assets_only (resolve_line_items latest).
Proof.
  set (li := resolve_line_items latest).
  assert (Hs : net_zakaatable_strict li
               = Py.max (gross_zakaatable li - total_deductions li) 0)
    by reflexivity.
  assert (Hb : net_zakaatable_broad li
               = Py.max (gross_zakaatable_broad li - total_deductions li) 0)
    by reflexivity.
  assert (Ha : net_zakaatable_assets_only li = gross_zakaatable_broad li)
    by reflexivity.
  assert (Hg : gross_zakaatable_broad li
               = gross_zakaatable li + nc_liquid_total li) by reflexivity.
  rewrite Hs, Hb, Ha, Hg. clear Hs Hb Ha Hg.
  generalize (gross_zakaatable li) (nc_liquid_total li) (total_deductions li).
  intros g n d Hn Hd Hg. split.
  - apply max_mono.
    apply Qplus_le_l with d. ring_simplify.
    rewrite <- (Qplus_0_r g) at 1. by apply Qplus_le_r.
  - destruct (max_cases (g + n - d) 0) as [-> | ->].
    + apply Qplus_le_l with d. ring_simplify.
      rewrite <- (Qplus_0_r (g + n)) at 1. by apply Qplus_le_r.
    + rewrite <- (Qplus_0_r 0). by apply Qplus_le_compat.
Qed.

(** C10.  For every record [fetch_company] returns that is not a fallback
    and has a market capitalisation above zero, when the non-current liquid
    total, the deductible-liability total and the gross current zakaatable
    total of its balance sheet are not negative, the three percentages are
    ordered: strict, then broad, then assets-only. *)
Theorem pcts_ordered (sym : string) (t : yf_ticker) (fx : gmap string Q)
    (bs_date : string) (latest : gmap string cell) (rest : dataframe)
    (bs_type : string) (m : Q) :
  choose_balance_sheet t = (Some ((bs_date, latest) :: rest), bs_type) →
  cd_fallback (fetch_company sym t) = Some false →
  cd_market_cap (fetch_company sym t) = Some m →
  0 < m →
  0 <= nc_liquid_total (resolve_line_items latest) →
  0 <= total_deductions (resolve_line_items latest) →
  0 <= gross_zakaatable (resolve_line_items latest) →
  ∃ s b a, compute_zakaatable_pcts (fetch_company sym t) fx = Some (s, b, a)
    ∧ s <= b ∧ b <= a.
Proof.
  intros H Hf Hm Hpos Hn Hd Hg.
  destruct (fetch_company_on_sheet sym t _ _ _ _ H)
    as (ln & mc & tc & fc & cp & Hz & Hnz).
  destruct (all_zero (resolve_line_items latest)) eqn:Ez.
  - rewrite Hz in Hf by done. discriminate.
  - destruct Hnz as (_ & _ & Hs & Hb & Ha); [done |].
    unfold compute_zakaatable_pcts. rewrite Hf, Hm, Hs, Hb, Ha.
    cbn [default from_option id]. rewrite market_cap_guard by done.
    destruct (nets_ordered latest Hn Hd Hg) as [L1 L2].
    set (fin := from_option id "USD"%string _).
    set (trade := from_option id "USD"%string _).
    destruct (convert_and_calc_pct_mono _ _ m fin trade fx Hpos L1)
      as (s & b & Es & Eb & Hsb).
    destruct (convert_and_calc_pct_mono _ _ m fin trade fx Hpos L2)
      as (b' & a & Eb' & Ea & Hba).
    rewrite Es, Eb, Ea. rewrite Eb in Eb'. injection Eb' as <-.
    by exists s, b, a.
Qed.

Lemma pcts_ordered_witness :
  ∃ s b a,
    compute_zakaatable_pcts (fetch_company "ACME" scenario_1) gbp_usd_rates
    = Some (s, b, a)
    ∧ s <= b ∧ b <= a.
Proof.
  apply (pcts_ordered "ACME" scenario_1 gbp_usd_rates "2024-12-31"
           scenario_1_sheet [] "quarterly" 1000);
    try reflexivity; vm_compute; discriminate.
Defined.

(** ** The loop of [compute_pension_data] *)

(** [compute_zakaatable_pcts] always returns. *)
Lemma pcts_total cd fx : ∃ t, compute_zakaatable_pcts cd fx = Some t.
Proof.
  destruct (default false (cd_fallback cd)) eqn:Ef.
  - rewrite pcts_fallback by done. eauto.
  - destruct (negb (Py.truthy (default 0 (cd_market_cap cd)))
              || Py.leb (default 0 (cd_market_cap cd)) 0) eqn:Eg.
    + unfold compute_zakaatable_pcts. rewrite Ef, Eg. eauto.
    + destruct (pcts_main_path cd fx Ef Eg) as (s & b & a & -> & _). eauto.
Qed.

Lemma pension_entry_of_total balance_sheets fx h :
  ∃ e, pension_entry_of balance_sheets fx h = Some e
    ∧ e_weight e = h_weight h.
Proof.
  unfold pension_entry_of.
  destruct (pcts_total (default empty_company (balance_sheets !! h_ticker h))
              fx) as ([[s b] a] & ->).
  simpl. eauto.
Qed.

Lemma mapM_pension_entries balance_sheets fx hs :
  ∃ rs, mapM (pension_entry_of balance_sheets fx) hs = Some rs
    ∧ map e_weight rs = map h_weight hs.
Proof.
  induction hs as [| h hs (rs & IH & Hw)]; simpl.
  - by exists [].
  - destruct (pension_entry_of_total balance_sheets fx h) as (e & -> & He).
    rewrite IH. simpl. exists (e :: rs). split; [done |].
    simpl. by rewrite He, Hw.
Qed.

(** ** C7: the price shown for a share quoted in pence *)





(** ** C4, C6, C9: the conversion and the aggregation in binary64 *)



















(** * Further properties of the script *)

(** ** [safe_get] *)

Lemma usable_insert_unusable series k c name :
  cell_value c = None →
  usable (<[k := c]> series) name = usable (delete k series) name.
Proof.
  intros Hc. unfold usable. destruct (decide (k = name)) as [-> | Hne].
  - by rewrite lookup_insert_eq, lookup_delete_eq.
  - by rewrite lookup_insert_ne, lookup_delete_ne.
Qed.

(** X1.  Trying the candidates [l1] and then the candidates [l2] is trying
    [l1] with, as default, what trying [l2] gives: an earlier candidate
    always has priority over a later one. *)
Theorem safe_get_app (series : gmap string cell) (l1 l2 : list string)
    (default : Q) :
  safe_get series (l1 ++ l2) default
  = safe_get series l1 (safe_get series l2 default).
Proof.
  induction l1 as [| name l1 IH]; simpl; [done |].
  destruct (usable series name); [done |].
  case_bool_decide; [| done].
  by destruct (usable series (spaced name)).
Qed.

(** X2.  [safe_get] never invents a value: what it returns is the default,
    or a number the column holds under one of the candidate names or under
    the spaced spelling of one. *)
Theorem safe_get_provenance (series : gmap string cell)
    (field_names : list string) (default : Q) :
  safe_get series field_names default = default
  ∨ ∃ name, name ∈ field_names
      ∧ (series !! name
         = Some (CNum (safe_get series field_names default))
         ∨ series !! spaced name
           = Some (CNum (safe_get series field_names default))).
Proof.
  induction field_names as [| name rest IH]; simpl; [by left |].
  assert (Hrest :
    safe_get series rest default = default
    ∨ ∃ name0, name0 ∈ name :: rest
        ∧ (series !! name0 = Some (CNum (safe_get series rest default))
           ∨ series !! spaced name0
             = Some (CNum (safe_get series rest default)))).
  { destruct IH as [? | (n & Hn & H)]; [by left | right].
    exists n. split; [by right | done]. }
  unfold usable.
  destruct (series !! name) as [[| | v] |] eqn:E1; simpl.
  3: { right. exists name. split; [by left | by left]. }
  all: case_bool_decide; [| done].
  all: destruct (series !! spaced name) as [[| | w] |] eqn:E2; simpl;
    try done.
  all: right; exists name; split; [by left | by right].
Qed.

(** X3.  A cell that holds [None] or a not-a-number is read exactly as a
    missing cell. *)
Theorem safe_get_nan_is_missing (series : gmap string cell) (k : string)
    (field_names : list string) (default : Q) :
  safe_get (<[k := CNaN]> series) field_names default
  = safe_get (delete k series) field_names default
  ∧ safe_get (<[k := CNone]> series) field_names default
    = safe_get (delete k series) field_names default.
Proof.
  split; induction field_names as [| name rest IH]; simpl; try done;
    rewrite !usable_insert_unusable by done; by rewrite IH.
Qed.

(** X4.  When none of the candidates holds a number, under its own
    spelling or the spaced one, the default comes back. *)
Theorem safe_get_default (series : gmap string cell)
    (field_names : list string) (default : Q) :
  (∀ name, name ∈ field_names →
     usable series name = None ∧ usable series (spaced name) = None) →
  safe_get series field_names default = default.
Proof.
  induction field_names as [| name rest IH]; intros H; simpl; [done |].
  destruct (H name) as [-> ->]; [by left |].
  rewrite IH; [by case_bool_decide |].
  intros n Hn. apply H. by right.
Qed.

Lemma safe_get_default_witness :
  safe_get (list_to_map [("Inventory"%string, CNaN);
                         ("Net Receivables"%string, CNone)])
    ["Inventory"; "NetReceivables"]%string 7 = 7.
Proof.
  apply safe_get_default. intros name Hn.
  apply list_elem_of_In in Hn. simpl in Hn.
  destruct Hn as [<- | [<- | []]]; by vm_compute.
Defined.

(** X5.  The spaced spelling only adds spaces: with the spaces dropped it
    is the name with its spaces dropped, so for a name without spaces the
    name itself. *)
Theorem drop_spaces_spaced (name : string) :
  drop_spaces (spaced name) = drop_spaces name.
Proof.
  unfold spaced. generalize 0%nat.
  induction name as [| ch rest IH]; intros i; simpl; [done |].
  destruct (Py.isupper ch && negb (i =? 0)%nat) eqn:E; simpl;
    by rewrite IH.
Qed.

(** ** [fetch_company] *)

Lemma fetch_company_no_sheet sym t ty :
  choose_balance_sheet t = (None, ty) →
  ∃ long_name market_cap trading_currency financial_currency current_price,
    fetch_company sym t
    = fallback_record sym long_name market_cap trading_currency
        financial_currency current_price "No balance sheet data available".
Proof.
  intros H. unfold fetch_company. rewrite H. by do 5 eexists.
Qed.

Lemma choose_balance_sheet_cases t :
  (∃ ty, choose_balance_sheet t = (None, ty))
  ∨ (∃ bs_date latest rest ty,
       choose_balance_sheet t = (Some ((bs_date, latest) :: rest), ty)).
Proof.
  destruct (choose_balance_sheet t) as [[df |] ty] eqn:E; [| eauto].
  pose proof (choose_balance_sheet_nonempty _ _ _ E) as Hne.
  destruct df as [| [d c] rest]; [done |]. right. eauto.
Qed.

Lemma max_zero_nonneg a : 0 <= Py.max a 0.
Proof. apply max_lower. Qed.

(** X6.  When the quarterly and the annual balance sheet are both missing
    or empty, the record is a fallback with the error "No balance sheet data
    available", and its three percentages are 25.0. *)
Theorem no_balance_sheet (sym : string) (t : yf_ticker)
    (fx : gmap string Q) :
  match quarterly_balance_sheet t with
  | Some qbs => df_empty qbs = true
  | None => True
  end →
  match balance_sheet t with
  | Some abs_ => df_empty abs_ = true
  | None => True
  end →
  cd_fallback (fetch_company sym t) = Some true
  ∧ cd_error (fetch_company sym t)
    = Some "No balance sheet data available"%string
  ∧ compute_zakaatable_pcts (fetch_company sym t) fx
    = Some (25.0, 25.0, 25.0).
Proof.
  intros Hq Ha.
  assert (H : choose_balance_sheet t = (None, "annual"%string)).
  { unfold choose_balance_sheet.
    destruct (quarterly_balance_sheet t) as [qbs |]; [rewrite Hq |];
      destruct (balance_sheet t) as [abs_ |]; by rewrite ?Ha. }
  destruct (fetch_company_no_sheet sym t _ H)
    as (ln & mc & tc & fc & cp & ->).
  done.
Qed.

Lemma no_balance_sheet_witness :
  cd_fallback (fetch_company "PNY.L" penny_share) = Some true
  ∧ cd_error (fetch_company "PNY.L" penny_share)
    = Some "No balance sheet data available"%string
  ∧ compute_zakaatable_pcts (fetch_company "PNY.L" penny_share)
      gbp_usd_rates
    = Some (25.0, 25.0, 25.0).
Proof. by apply (no_balance_sheet "PNY.L" penny_share gbp_usd_rates). Defined.

(** X7.  Every record [fetch_company] returns names its ticker and is of
    one of two kinds: a fallback, with one of the two error messages, the
    percentage 25.0 and no net amount; or a full record, without error and
    without recorded percentage, whose strict and broad net amounts are
    there and not negative. *)
Theorem fetch_company_record_kinds (sym : string) (t : yf_ticker) :
  cd_ticker (fetch_company sym t) = Some sym
  ∧ ((cd_fallback (fetch_company sym t) = Some true
      ∧ (cd_error (fetch_company sym t)
         = Some "No balance sheet data available"%string
         ∨ cd_error (fetch_company sym t)
           = Some "Balance sheet data all empty/NaN"%string)
      ∧ cd_zakaatable_pct (fetch_company sym t) = Some 25.0
      ∧ cd_net_zakaatable (fetch_company sym t) = None)
     ∨ (cd_fallback (fetch_company sym t) = Some false
        ∧ cd_error (fetch_company sym t) = None
        ∧ cd_zakaatable_pct (fetch_company sym t) = None
        ∧ ∃ strict broad,
            cd_net_zakaatable (fetch_company sym t) = Some strict
            ∧ cd_net_zakaatable_broad (fetch_company sym t) = Some broad
            ∧ 0 <= strict ∧ 0 <= broad)).
Proof.
  destruct (choose_balance_sheet_cases t)
    as [[ty H] | (bs_date & latest & rest & ty & H)].
  - destruct (fetch_company_no_sheet sym t _ H)
      as (ln & mc & tc & fc & cp & ->).
    split; [done |]. left. repeat split; auto.
  - pose proof (choose_balance_sheet_nonempty _ _ _ H) as Hne.
    unfold fetch_company. rewrite H. cbn [default from_option id].
    rewrite Hne.
    destruct (all_zero (resolve_line_items latest)).
    + split; [done |]. left. repeat split; auto.
    + split; [done |]. right. repeat split.
      do 2 eexists. split; [reflexivity |]. split; [reflexivity |].
      split; apply max_zero_nonneg.
Qed.

Lemma pcts_of_sound cd fx :
  sound_fallback cd →
  ∃ s b a, compute_zakaatable_pcts cd fx = Some (s, b, a)
    ∧ in_range s ∧ in_range b ∧ in_range a.
Proof.
  intros Hfb. destruct (default false (cd_fallback cd)) eqn:Ef.
  - rewrite pcts_fallback by done. do 3 eexists. split; [done |].
    by specialize (Hfb Ef).
  - destruct (negb (Py.truthy (default 0 (cd_market_cap cd)))
              || Py.leb (default 0 (cd_market_cap cd)) 0) eqn:Eg.
    + unfold compute_zakaatable_pcts. rewrite Ef, Eg.
      do 3 eexists. split; [done |]. by vm_compute.
    + by apply pcts_main_path.
Qed.

Lemma in_range_25 : in_range 25.0.
Proof. by vm_compute. Qed.

Lemma fetch_company_sound sym t : sound_fallback (fetch_company sym t).
Proof.
  destruct (choose_balance_sheet_cases t)
    as [[ty H] | (bs_date & latest & rest & ty & H)].
  - destruct (fetch_company_no_sheet sym t _ H)
      as (ln & mc & tc & fc & cp & ->).
    intros _. apply in_range_25.
  - destruct (fetch_company_on_sheet sym t _ _ _ _ H)
      as (ln & mc & tc & fc & cp & Hz & Hnz).
    destruct (all_zero (resolve_line_items latest)).
    + rewrite Hz by done. intros _. apply in_range_25.
    + destruct Hnz as (Hf & _); [done |].
      unfold sound_fallback. by rewrite Hf.
Qed.

(** X8.  Whatever Yahoo answers for a ticker and whatever the rate table,
    the three percentages computed from the record of [fetch_company] are
    there and lie in [[0, 100]]. *)
Theorem fetch_company_pcts_in_range (sym : string) (t : yf_ticker)
    (fx : gmap string Q) :
  ∃ s b a, compute_zakaatable_pcts (fetch_company sym t) fx = Some (s, b, a)
    ∧ in_range s ∧ in_range b ∧ in_range a.
Proof.
  destruct (choose_balance_sheet_cases t)
    as [[ty H] | (bs_date & latest & rest & ty & H)].
  - destruct (fetch_company_no_sheet sym t _ H)
      as (ln & mc & tc & fc & cp & ->).
    exists 25.0, 25.0, 25.0. split; [done |]. by vm_compute.
  - destruct (fetch_company_on_sheet sym t _ _ _ _ H)
      as (ln & mc & tc & fc & cp & Hz & Hnz).
    destruct (all_zero (resolve_line_items latest)).
    + rewrite Hz by done.
      exists 25.0, 25.0, 25.0. split; [done |]. by vm_compute.
    + destruct Hnz as (Hf & _); [done |].
      apply pcts_of_sound. unfold sound_fallback. by rewrite Hf.
Qed.

(** X9.  When the first column of the quarterly balance sheet has rows, the
    record is built from that column alone: the older columns and the
    annual balance sheet are never read. *)
Theorem latest_quarterly_column_only (sym : string) (t : yf_ticker)
    (bs_date : string) (latest : gmap string cell) (rest : dataframe) :
  quarterly_balance_sheet t = Some ((bs_date, latest) :: rest) →
  latest ≠ ∅ →
  fetch_company sym t
  = fetch_company sym
      {| info := info t;
         quarterly_balance_sheet := Some [(bs_date, latest)];
         balance_sheet := None |}.
Proof.
  intros Hq Hne.
  assert (He : df_empty ((bs_date, latest) :: rest) = false)
    by by apply bool_decide_eq_false.
  assert (He' : df_empty [(bs_date, latest)] = false)
    by by apply bool_decide_eq_false.
  assert (H : choose_balance_sheet t
              = (Some ((bs_date, latest) :: rest), "quarterly"%string)).
  { unfold choose_balance_sheet. by rewrite Hq, He. }
  assert (H' : choose_balance_sheet
                 {| info := info t;
                    quarterly_balance_sheet := Some [(bs_date, latest)];
                    balance_sheet := None |}
               = (Some [(bs_date, latest)], "quarterly"%string)).
  { unfold choose_balance_sheet.
    cbn [quarterly_balance_sheet balance_sheet]. by rewrite He'. }
  unfold fetch_company. rewrite H, H'. cbn [info default from_option id].
  by rewrite He, He'.
Qed.

Lemma latest_quarterly_column_only_witness :
  fetch_company "NMD" no_market_data
  = fetch_company "NMD"
      {| info := None;
         quarterly_balance_sheet :=
           Some [("2024-12-31"%string, scenario_1_sheet)];
         balance_sheet := None |}.
Proof.
  apply (latest_quarterly_column_only "NMD" no_market_data "2024-12-31"
           scenario_1_sheet [("2024-09-30"%string, ∅)]).
  - reflexivity.
  - intros E.
    pose proof (f_equal (lookup "Receivables"%string) E) as E'.
    vm_compute in E'. discriminate E'.
Defined.

(** The market capitalisation [fetch_company] records, on every path. *)
Lemma fetch_company_market_cap sym t :
  cd_market_cap (fetch_company sym t)
  = Some
      (let i := default empty_info (info t) in
       let market_cap := Py.or_opt (marketCap i) 0 in
       let current_price :=
         Py.or_opt (currentPrice i) (Py.or_opt (previousClose i) 0) in
       let shares_outstanding := Py.or_opt (sharesOutstanding i) 0 in
       if negb (Py.truthy market_cap) && Py.truthy shares_outstanding
          && Py.truthy current_price
       then shares_outstanding * current_price
       else market_cap).
Proof.
  unfold fetch_company.
  destruct (choose_balance_sheet t) as [[[| [d latest] rest] |] ty];
    try reflexivity.
  cbn [default from_option id].
  destruct (df_empty ((d, latest) :: rest)); [reflexivity |].
  destruct (all_zero (resolve_line_items latest)); reflexivity.
Qed.

Lemma fetch_company_fallback_pct sym t :
  default false (cd_fallback (fetch_company sym t)) = true →
  cd_zakaatable_pct (fetch_company sym t) = Some 25.0.
Proof.
  destruct (choose_balance_sheet_cases t)
    as [[ty H] | (bs_date & latest & rest & ty & H)].
  - by destruct (fetch_company_no_sheet sym t _ H)
      as (ln & mc & tc & fc & cp & ->).
  - destruct (fetch_company_on_sheet sym t _ _ _ _ H)
      as (ln & mc & tc & fc & cp & Hz & Hnz).
    destruct (all_zero (resolve_line_items latest)).
    + by rewrite Hz.
    + destruct Hnz as (Hf & _); [done |]. by rewrite Hf.
Qed.

(** X10.  When Yahoo gives neither a market capitalisation nor a number
    of shares (in particular when [ticker.info] raises), the three
    percentages are 25.0 whatever the balance sheet holds, also for a
    record that is not flagged fallback. *)
Theorem no_market_data_gives_25 (sym : string) (t : yf_ticker)
    (fx : gmap string Q) :
  marketCap (default empty_info (info t)) = None →
  sharesOutstanding (default empty_info (info t)) = None →
  cd_market_cap (fetch_company sym t) = Some 0
  ∧ compute_zakaatable_pcts (fetch_company sym t) fx
    = Some (25.0, 25.0, 25.0).
Proof.
  intros Hm Hs.
  assert (Hmc : cd_market_cap (fetch_company sym t) = Some 0).
  { rewrite fetch_company_market_cap. cbn zeta. by rewrite Hm, Hs. }
  split; [done |].
  destruct (default false (cd_fallback (fetch_company sym t))) eqn:Ef.
  - rewrite pcts_fallback by done.
    by rewrite fetch_company_fallback_pct.
  - apply pcts_degenerate; [done |]. by rewrite Hmc.
Qed.

Lemma no_market_data_gives_25_witness :
  cd_market_cap (fetch_company "NMD" no_market_data) = Some 0
  ∧ compute_zakaatable_pcts (fetch_company "NMD" no_market_data)
      gbp_usd_rates
    = Some (25.0, 25.0, 25.0).
Proof.
  by apply (no_market_data_gives_25 "NMD" no_market_data gbp_usd_rates).
Defined.

(** X11.  The market capitalisation of the record: the one Yahoo gives
    when it is not zero; else, when the number of shares and the current
    price are both known and not zero, their product. *)
Theorem market_cap_derivation (sym : string) (t : yf_ticker)
    (i : info_dict) :
  info t = Some i →
  (∀ m, marketCap i = Some m → ¬ m == 0 →
     cd_market_cap (fetch_company sym t) = Some m)
  ∧ (∀ s p, (marketCap i = None ∨ marketCap i = Some 0) →
       sharesOutstanding i = Some s → ¬ s == 0 →
       currentPrice i = Some p → ¬ p == 0 →
       cd_market_cap (fetch_company sym t) = Some (s * p)).
Proof.
  intros Hi. rewrite fetch_company_market_cap, Hi. cbn zeta.
  cbn [default from_option id]. split.
  - intros m -> Hm%eqb_neq.
    assert (E : Py.or_opt (Some m) 0 = m)
      by (unfold Py.or_opt, Py.or_, Py.truthy; by rewrite Hm).
    rewrite E. unfold Py.truthy at 1. by rewrite Hm.
  - intros s p Hm -> Hs%eqb_neq -> Hp%eqb_neq.
    assert (E : Py.or_opt (marketCap i) 0 = 0)
      by by destruct Hm as [-> | ->].
    rewrite E. unfold Py.or_opt, Py.or_, Py.truthy.
    rewrite Hs, Hp. cbn [negb]. by rewrite Hs, Hp.
Qed.

Lemma market_cap_derivation_witness :
  cd_market_cap (fetch_company "ACME" scenario_1) = Some 1000
  ∧ cd_market_cap (fetch_company "SHR" shares_only) = Some (80 * 12.5).
Proof.
  split.
  - apply (market_cap_derivation "ACME" scenario_1 (usd_info 1000));
      [reflexivity | reflexivity | discriminate].
  - apply (market_cap_derivation "SHR" shares_only
             {| marketCap := None; currency := Some "USD"%string;
                financialCurrency := None; currentPrice := Some 12.5;
                previousClose := Some 12; sharesOutstanding := Some 80;
                longName := None; shortName := Some "Shares"%string |});
      [reflexivity | by left | reflexivity | discriminate | reflexivity
      | discriminate].
Defined.

(** ** The percentage engine and the normalizer *)

Lemma normalize_nonpos v f m fx y :
  v <= 0 → normalize v f m fx = Some y → y <= 0.
Proof.
  intros Hv.
  destruct (normalize_cases v f m fx) as [(_ & Hf & Hm & ->) | [_ ->]];
    intros [= <-]; [| done].
  rewrite <- (Qmult_0_l (rate fx m)).
  apply Qmult_le_compat_r; [| by apply Qlt_le_weak].
  unfold Qdiv. rewrite <- (Qmult_0_l (/ rate fx f)).
  apply Qmult_le_compat_r; [done |].
  by apply Qlt_le_weak, Qinv_lt_0_compat.
Qed.

(** An amount that is not positive gives the percentage [round(0, 4)]. *)
Lemma convert_nonpos v mc f t fx :
  0 < mc → v <= 0 →
  _convert_and_calc_pct v mc f t fx = Some (Py.round 0 4).
Proof.
  intros Hmc Hv.
  destruct (convert_and_calc_pct_Some v mc f t fx (pos_nonzero _ Hmc))
    as (y & Hy & ->).
  apply normalize_nonpos in Hy; [| done].
  assert (Hp : y / mc * 100 <= 0).
  { rewrite <- (Qmult_0_l 100). apply Qmult_le_compat_r; [| done].
    unfold Qdiv. rewrite <- (Qmult_0_l (/ mc)).
    apply Qmult_le_compat_r; [done |].
    by apply Qlt_le_weak, Qinv_lt_0_compat. }
  assert (Hmin : Py.min (y / mc * 100) 100 <= 0).
  { destruct (min_upper (y / mc * 100) 100) as [H1 _].
    by apply Qle_trans with (y / mc * 100). }
  unfold Py.max. by rewrite (proj2 (ltb_ge _ _) Hmin).
Qed.

(** X12.  With a market capitalisation above zero, an amount that is zero
    or negative gives the percentage 0, whatever the currencies and the
    rate table; and an amount in the currency of the market capitalisation
    that reaches it gives the percentage 100. *)
Theorem pct_saturates (v mc : Q) (f t : string) (fx : gmap string Q) :
  0 < mc →
  (v <= 0 →
   ∃ p, _convert_and_calc_pct v mc f t fx = Some p ∧ p == 0)
  ∧ (mc <= v → f = (if is_minor_unit t then "GBP"%string else t) →
     ∃ p, _convert_and_calc_pct v mc f t fx = Some p ∧ p == 100).
Proof.
  intros Hmc. split.
  - intros Hv. rewrite convert_nonpos by done. by eexists.
  - intros Hv Hf.
    destruct (convert_and_calc_pct_Some v mc f t fx (pos_nonzero _ Hmc))
      as (y & Hy & ->).
    rewrite <- Hf, normalize_refl in Hy. injection Hy as <-.
    eexists. split; [done |].
    assert (Hp : 100 <= v / mc * 100).
    { rewrite <- (Qmult_1_l 100) at 1. apply Qmult_le_compat_r; [| done].
      apply Qle_shift_div_l; [done |]. by rewrite Qmult_1_l. }
    assert (Hc : Py.max 0 (Py.min (v / mc * 100) 100) == 100).
    { unfold Py.min. destruct (Py.ltb 100 (v / mc * 100)) eqn:E.
      - unfold Py.max. by rewrite (proj2 (ltb_lt 0 100)).
      - apply ltb_ge in E. unfold Py.max.
        rewrite (proj2 (ltb_lt 0 (v / mc * 100)));
          [by apply Qle_antisym |].
        by apply Qlt_le_trans with 100. }
    by rewrite (round_proper _ 100 4 Hc).
Qed.

Lemma pct_saturates_witness :
  (∃ p, _convert_and_calc_pct (-5) 1000 "EUR" "GBX" gbp_usd_rates = Some p
     ∧ p == 0)
  ∧ (∃ p, _convert_and_calc_pct 2000 1000 "GBP" "GBX" gbp_usd_rates = Some p
       ∧ p == 100).
Proof.
  split.
  - apply (pct_saturates (-5) 1000 "EUR" "GBX" gbp_usd_rates);
      [reflexivity | discriminate].
  - apply (pct_saturates 2000 1000 "GBP" "GBX" gbp_usd_rates);
      [reflexivity | discriminate | reflexivity].
Defined.

(** X13.  For a record of [fetch_company] that is not a fallback, with a
    market capitalisation above zero: when the deductible liabilities
    reach the gross current zakaatable assets, the strict percentage is
    0. *)
Theorem strict_pct_zero (sym : string) (t : yf_ticker) (fx : gmap string Q)
    (bs_date : string) (latest : gmap string cell) (rest : dataframe)
    (bs_type : string) (m : Q) :
  choose_balance_sheet t = (Some ((bs_date, latest) :: rest), bs_type) →
  cd_fallback (fetch_company sym t) = Some false →
  cd_market_cap (fetch_company sym t) = Some m →
  0 < m →
  gross_zakaatable (resolve_line_items latest)
  <= total_deductions (resolve_line_items latest) →
  ∃ s b a, compute_zakaatable_pcts (fetch_company sym t) fx = Some (s, b, a)
    ∧ s == 0.
Proof.
  intros H Hf Hm Hpos Hle.
  destruct (fetch_company_on_sheet sym t _ _ _ _ H)
    as (ln & mc & tc & fc & cp & Hz & Hnz).
  destruct (all_zero (resolve_line_items latest)) eqn:Ez.
  - rewrite Hz in Hf by done. discriminate.
  - destruct Hnz as (_ & _ & Hs & _); [done |].
    assert (Hnet : net_zakaatable_strict (resolve_line_items latest) <= 0).
    { change (net_zakaatable_strict (resolve_line_items latest))
        with (Py.max (gross_zakaatable (resolve_line_items latest)
                      - total_deductions (resolve_line_items latest)) 0).
      destruct (max_cases (gross_zakaatable (resolve_line_items latest)
                           - total_deductions (resolve_line_items latest)) 0)
        as [-> | ->]; [| done].
      apply Qplus_le_l with (total_deductions (resolve_line_items latest)).
      by ring_simplify. }
    unfold compute_zakaatable_pcts. rewrite Hf, Hm, Hs.
    cbn [default from_option id]. rewrite market_cap_guard by done.
    rewrite (convert_nonpos _ m _ _ fx Hpos Hnet).
    set (fin := from_option id "USD"%string _).
    set (trade := from_option id "USD"%string _).
    set (net_broad := from_option id _ (cd_net_zakaatable_broad _)).
    set (assets_only := from_option id _ (cd_net_zakaatable_assets_only _)).
    destruct (convert_and_calc_pct_range net_broad m fin trade fx
                (pos_nonzero _ Hpos)) as (b & -> & _).
    destruct (convert_and_calc_pct_range assets_only m fin trade fx
                (pos_nonzero _ Hpos)) as (a & -> & _).
    by exists (Py.round 0 4), b, a.
Qed.

Lemma strict_pct_zero_witness :
  ∃ s b a,
    compute_zakaatable_pcts (fetch_company "DEBT" indebted) gbp_usd_rates
    = Some (s, b, a)
    ∧ s == 0.
Proof.
  apply (strict_pct_zero "DEBT" indebted gbp_usd_rates "2024-12-31"
           (list_to_map [("CashAndCashEquivalents"%string, CNum 50);
                         ("AccountsPayable"%string, CNum 80)])
           [] "quarterly" 1000);
    try reflexivity; vm_compute; discriminate.
Defined.

(** X14.  When the reporting currency is the currency of the market
    capitalisation (the trading currency, or the pound for a share quoted
    in pence), the percentage does not depend on the rate table. *)
Theorem pct_without_conversion (v mc : Q) (f t : string)
    (fx fx' : gmap string Q) :
  f = (if is_minor_unit t then "GBP"%string else t) →
  _convert_and_calc_pct v mc f t fx = _convert_and_calc_pct v mc f t fx'.
Proof.
  intros Hf. unfold _convert_and_calc_pct.
  by rewrite <- Hf, !normalize_refl.
Qed.

Lemma pct_without_conversion_witness :
  _convert_and_calc_pct 90 1000 "GBP" "GBp" gbp_usd_rates
  = _convert_and_calc_pct 90 1000 "GBP" "GBp" ∅.
Proof.
  apply (pct_without_conversion 90 1000 "GBP" "GBp" gbp_usd_rates ∅).
  reflexivity.
Defined.

(** ** [fetch_fx_rates] *)

(** X17.  [fetch_fx_rates] fails exactly on an answer that is not a success
    or has no rates.  Otherwise the table it returns gives [GBp] and [GBX]
    100 times the rate of [GBP] (100 when [GBP] is not listed) and every
    other code the rate of the answer. *)
Theorem fetch_fx_rates_result (data : fx_response) :
  (fetch_fx_rates data = None
   ↔ api_result data ≠ Some "success"%string ∨ api_rates data = None)
  ∧ (∀ rates fx, api_rates data = Some rates →
       fetch_fx_rates data = Some fx →
       fx !! "GBp"%string = Some (rate rates "GBP" * 100)
       ∧ fx !! "GBX"%string = Some (rate rates "GBP" * 100)
       ∧ ∀ c, c ≠ "GBp"%string → c ≠ "GBX"%string → fx !! c = rates !! c).
Proof.
  unfold fetch_fx_rates. split.
  - case_bool_decide as Hr; [by split; auto |].
    destruct (api_rates data) as [rates |]; simpl.
    + split; [done |]. intros [? | ?]; [by destruct Hr | done].
    + split; auto.
  - intros rates fx Hrates. rewrite Hrates. case_bool_decide; [done |].
    simpl. intros [= <-]. split; [| split].
    + by rewrite lookup_insert_ne, lookup_insert_eq.
    + by rewrite lookup_insert_eq.
    + intros c H1 H2. by rewrite !lookup_insert_ne.
Qed.

(** ** [fetch_all_balance_sheets] *)

Lemma fetch_one_results y st t :
  (fetch_one y st t).1 = <[t := record_of y t]> st.1.
Proof.
  unfold fetch_one, record_of. destruct st as [results errors].
  destruct (y t) as [answer | e]; [| done].
  by destruct (truthy_str (cd_error (fetch_company t answer))).
Qed.

Lemma fetch_loop_lookup y tickers st t :
  (fold_left (fetch_one y) tickers st).1 !! t
  = if bool_decide (t ∈ tickers) then Some (record_of y t) else st.1 !! t.
Proof.
  revert st. induction tickers as [| t0 tickers IH]; intros st.
  - cbn [fold_left]. case_bool_decide as H; [by apply elem_of_nil in H | done].
  - cbn [fold_left]. rewrite IH, fetch_one_results.
    case_bool_decide as Hin; case_bool_decide as Hin'; try done.
    + destruct Hin'. by right.
    + apply elem_of_cons in Hin' as [-> | ?]; [| done].
      by rewrite lookup_insert_eq.
    + rewrite lookup_insert_ne; [done |].
      intros ->. destruct Hin'. by left.
Qed.

(** X19.  [fetch_all_balance_sheets] stores a record for every ticker of
    its list and for no other: the record [fetch_company] builds from the
    answer of Yahoo, or the exception record when the fetch raised.  A
    ticker that fails never costs another ticker its record. *)
Theorem fetch_all_lookup (tickers : list string) (y : yahoo) (t : string) :
  fetch_all_balance_sheets tickers y !! t
  = if bool_decide (t ∈ tickers) then Some (record_of y t) else None.
Proof.
  unfold fetch_all_balance_sheets, fetch_all_loop.
  by rewrite fetch_loop_lookup.
Qed.

Lemma exception_record_sound t e : sound_fallback (exception_record t e).
Proof. intros _. apply in_range_25. Qed.

Lemma record_of_sound y t : sound_fallback (record_of y t).
Proof.
  unfold record_of. destruct (y t);
    [apply fetch_company_sound | apply exception_record_sound].
Qed.

(** X20.  Every record [fetch_all_balance_sheets] stores, also the record
    of a fetch that raised, yields three percentages in [[0, 100]] under
    every rate table. *)
Theorem fetched_pcts_in_range (tickers : list string) (y : yahoo)
    (t : string) (cd : company_data) (fx : gmap string Q) :
  fetch_all_balance_sheets tickers y !! t = Some cd →
  ∃ s b a, compute_zakaatable_pcts cd fx = Some (s, b, a)
    ∧ in_range s ∧ in_range b ∧ in_range a.
Proof.
  unfold fetch_all_balance_sheets, fetch_all_loop.
  rewrite fetch_loop_lookup. case_bool_decide; [| done].
  intros [= <-]. apply pcts_of_sound, record_of_sound.
Qed.

Lemma fetched_pcts_in_range_witness :
  ∃ s b a,
    compute_zakaatable_pcts (exception_record "NOPE" "HTTP Error 404")
      gbp_usd_rates = Some (s, b, a)
    ∧ in_range s ∧ in_range b ∧ in_range a.
Proof.
  apply (fetched_pcts_in_range ["ACME"; "NOPE"]%string yahoo_sample "NOPE").
  by vm_compute.
Defined.

(** A record of [fetch_company] has an error that is not empty exactly
    when it is flagged fallback. *)
Lemma fetch_company_error_iff sym t :
  truthy_str (cd_error (fetch_company sym t))
  = is_fallback (fetch_company sym t).
Proof.
  unfold is_fallback.
  destruct (choose_balance_sheet_cases t)
    as [[ty H] | (bs_date & latest & rest & ty & H)].
  - by destruct (fetch_company_no_sheet sym t _ H)
      as (ln & mc & tc & fc & cp & ->).
  - pose proof (choose_balance_sheet_nonempty _ _ _ H) as Hne.
    unfold fetch_company. rewrite H. cbn [default from_option id].
    rewrite Hne. by destruct (all_zero (resolve_line_items latest)).
Qed.

Lemma fetch_one_errors y st t :
  map fst (fetch_one y st t).2
  = map fst st.2 ++ (if is_fallback (record_of y t) then [t] else []).
Proof.
  unfold fetch_one, record_of. destruct st as [results errors]. simpl.
  destruct (y t) as [answer | e].
  - rewrite <- fetch_company_error_iff.
    destruct (truthy_str (cd_error (fetch_company t answer))); simpl.
    + by rewrite map_app.
    + by rewrite app_nil_r.
  - simpl. by rewrite map_app.
Qed.

(** X21.  The tickers [fetch_all_balance_sheets] reports at the end are
    the tickers of its list whose record is flagged fallback, in the order
    of the list. *)
Theorem reported_errors (tickers : list string) (y : yahoo) :
  map fst (fetch_all_loop tickers y).2
  = filter (λ t, is_fallback (record_of y t) = true) tickers.
Proof.
  unfold fetch_all_loop.
  assert (H : ∀ st,
    map fst (fold_left (fetch_one y) tickers st).2
    = map fst st.2
      ++ filter (λ t, is_fallback (record_of y t) = true) tickers).
  { induction tickers as [| t tickers IH]; intros st; simpl.
    - by rewrite app_nil_r.
    - rewrite IH, fetch_one_errors, <- app_assoc. f_equal.
      rewrite filter_cons.
      destruct (is_fallback (record_of y t)) eqn:E.
      + by rewrite decide_True.
      + by rewrite decide_False. }
  by rewrite H.
Qed.

(** ** [compute_pension_data] *)

Lemma empty_company_sound : sound_fallback empty_company.
Proof. intros H. discriminate H. Qed.

Lemma bs_data_sound (balance_sheets : gmap string company_data) ticker :
  (∀ t cd, balance_sheets !! t = Some cd → sound_fallback cd) →
  sound_fallback (default empty_company (balance_sheets !! ticker)).
Proof.
  intros H. destruct (balance_sheets !! ticker) as [cd |] eqn:E; simpl.
  - by apply (H ticker).
  - apply empty_company_sound.
Qed.

Lemma pension_entry_of_range balance_sheets fx h :
  (∀ t cd, balance_sheets !! t = Some cd → sound_fallback cd) →
  ∃ e, pension_entry_of balance_sheets fx h = Some e
    ∧ e_weight e = h_weight h
    ∧ in_range (e_zakaatable_pct e)
    ∧ in_range (e_zakaatable_pct_broad e)
    ∧ in_range (e_zakaatable_pct_assets_only e).
Proof.
  intros H. unfold pension_entry_of.
  destruct (pcts_of_sound _ fx (bs_data_sound balance_sheets (h_ticker h) H))
    as (s & b & a & -> & Hs & Hb & Ha).
  simpl. eexists. split; [done |]. by simpl.
Qed.

Lemma mapM_pension_entries_range balance_sheets fx hs :
  (∀ t cd, balance_sheets !! t = Some cd → sound_fallback cd) →
  (∀ h, h ∈ hs → 0 <= h_weight h) →
  ∃ rs, mapM (pension_entry_of balance_sheets fx) hs = Some rs
    ∧ map e_weight rs = map h_weight hs
    ∧ Forall (λ e, 0 <= e_weight e
                   ∧ in_range (e_zakaatable_pct e)
                   ∧ in_range (e_zakaatable_pct_broad e)
                   ∧ in_range (e_zakaatable_pct_assets_only e)) rs.
Proof.
  intros Hbs. induction hs as [| h hs IH]; intros Hw; simpl.
  - exists []. by repeat split.
  - destruct IH as (rs & Hrs & Hmap & Hall).
    { intros h' Hh'. apply Hw. by right. }
    destruct (pension_entry_of_range balance_sheets fx h Hbs)
      as (e & -> & He & Hs & Hb & Ha).
    rewrite Hrs. simpl. exists (e :: rs). split; [done |]. split.
    + simpl. by rewrite He, Hmap.
    + constructor; [| done]. rewrite He. split; [| done].
      apply Hw. by left.
Qed.

(** The weighted sum of percentages lies between 0 and the sum of the
    weights. *)
Lemma weighted_sum_bounds (results : list pension_entry)
    (key : pension_entry → Q) :
  Forall (λ e, 0 <= e_weight e ∧ in_range (key e)) results →
  0 <= Py.sum (map (λ r, e_weight r * key r / 100) results)
  ∧ Py.sum (map (λ r, e_weight r * key r / 100) results)
    <= Py.sum (map e_weight results).
Proof.
  rewrite !sum_fold_right.
  induction 1 as [| e rs (Hw & H0 & H1) _ [IH0 IH1]]; simpl; [done |].
  assert (L : 0 <= e_weight e * key e / 100).
  { apply Qle_shift_div_l; [done |]. rewrite Qmult_0_l.
    by apply Qmult_le_0_compat. }
  assert (U : e_weight e * key e / 100 <= e_weight e).
  { apply Qle_shift_div_r; [done |]. rewrite !(Qmult_comm (e_weight e)).
    by apply Qmult_le_compat_r. }
  split.
  - apply (Qplus_le_compat 0 _ 0 _ L IH0).
  - by apply Qplus_le_compat.
Qed.

(** X22.  When every stored record that is flagged fallback records a
    percentage in [[0, 100]], no weight is negative, the cash percentage is
    not negative, and the weights and the cash percentage add up to 100 at
    most, the three fund-level percentages lie in [[0, 100]]. *)
Theorem fund_pcts_in_range (fh : fund_holdings)
    (balance_sheets : gmap string company_data) (fx : gmap string Q) :
  (∀ t cd, balance_sheets !! t = Some cd → sound_fallback cd) →
  (∀ h, h ∈ holdings fh → 0 <= h_weight h) →
  0 <= fund_cash_pct fh →
  Py.sum (map h_weight (holdings fh)) + fund_cash_pct fh <= 100 →
  ∃ pd, compute_pension_data fh balance_sheets fx = Some pd
    ∧ in_range (fund_zakaatable_pct pd)
    ∧ in_range (fund_zakaatable_pct_broad pd)
    ∧ in_range (fund_zakaatable_pct_assets_only pd).
Proof.
  intros Hbs Hw Hc Hsum. unfold compute_pension_data.
  destruct (mapM_pension_entries_range balance_sheets fx (holdings fh)
              Hbs Hw) as (rs & -> & Hmap & Hall).
  simpl. eexists. split; [done |]. simpl.
  assert (Hkey : ∀ key,
    Forall (λ e, 0 <= e_weight e ∧ in_range (key e)) rs →
    in_range (Py.round (fund_pct rs key (fund_cash_pct fh)) 4)).
  { intros key Hk. apply round_in_range. unfold fund_pct.
    destruct (weighted_sum_bounds rs key Hk) as [L U]. split.
    - apply (Qplus_le_compat 0 _ 0 _ L Hc).
    - eapply Qle_trans; [| exact Hsum].
      apply Qplus_le_l. by rewrite <- Hmap. }
  repeat split; apply Hkey; eapply Forall_impl; try exact Hall;
    intros e (? & ? & ? & ?); by split.
Qed.

Lemma fund_pcts_in_range_witness :
  ∃ pd, compute_pension_data scenario_3 ∅ gbp_usd_rates = Some pd
    ∧ in_range (fund_zakaatable_pct pd)
    ∧ in_range (fund_zakaatable_pct_broad pd)
    ∧ in_range (fund_zakaatable_pct_assets_only pd).
Proof.
  apply (fund_pcts_in_range scenario_3 ∅ gbp_usd_rates).
  - intros t cd H. by rewrite lookup_empty in H.
  - intros h Hh. apply list_elem_of_In in Hh. simpl in Hh.
    destruct Hh as [<- | [<- | []]]; by vm_compute.
  - by vm_compute.
  - by vm_compute.
Defined.

(** X23.  A holding whose ticker has no record gets an entry all the same:
    flagged fallback, without error, dated "N/A", with market
    capitalisation 0 and the three percentages 25.0. *)
Theorem missing_ticker_entry (balance_sheets : gmap string company_data)
    (fx : gmap string Q) (h : holding) :
  balance_sheets !! h_ticker h = None →
  ∃ e, pension_entry_of balance_sheets fx h = Some e
    ∧ e_ticker e = h_ticker h
    ∧ e_weight e = h_weight h
    ∧ e_zakaatable_pct e = 25.0
    ∧ e_zakaatable_pct_broad e = 25.0
    ∧ e_zakaatable_pct_assets_only e = 25.0
    ∧ e_fallback e = true
    ∧ e_error e = None
    ∧ e_bs_date e = "N/A"%string
    ∧ e_market_cap e = 0.
Proof.
  intros H. unfold pension_entry_of. rewrite H. simpl.
  eexists. split; [done |]. by simpl.
Qed.

Lemma missing_ticker_entry_witness :
  ∃ e, pension_entry_of ∅ gbp_usd_rates
         {| h_name := "Acme"%string; h_ticker := "ACME"%string;
            h_country := "US"%string; h_weight := 60 |} = Some e
    ∧ e_ticker e = "ACME"%string
    ∧ e_weight e = 60
    ∧ e_zakaatable_pct e = 25.0
    ∧ e_zakaatable_pct_broad e = 25.0
    ∧ e_zakaatable_pct_assets_only e = 25.0
    ∧ e_fallback e = true
    ∧ e_error e = None
    ∧ e_bs_date e = "N/A"%string
    ∧ e_market_cap e = 0.
Proof.
  apply (missing_ticker_entry ∅ gbp_usd_rates
           {| h_name := "Acme"%string; h_ticker := "ACME"%string;
              h_country := "US"%string; h_weight := 60 |}).
  apply lookup_empty.
Defined.

Lemma weighted_sum_mono (results : list pension_entry)
    (key key' : pension_entry → Q) :
  Forall (λ e, 0 <= e_weight e ∧ key e <= key' e) results →
  Py.sum (map (λ r, e_weight r * key r / 100) results)
  <= Py.sum (map (λ r, e_weight r * key' r / 100) results).
Proof.
  rewrite !sum_fold_right.
  induction 1 as [| e rs [Hw Hk] _ IH]; simpl; [done |].
  apply Qplus_le_compat; [| done].
  unfold Qdiv. apply Qmult_le_compat_r; [| done].
  rewrite !(Qmult_comm (e_weight e)). by apply Qmult_le_compat_r.
Qed.

(** X24.  The aggregate keeps the order of the methodologies: when no
    entry has a negative weight and every entry has its strict percentage
    at most its broad one, and its broad one at most its assets-only one,
    the fund-level percentages are ordered the same way. *)
Theorem fund_pcts_ordered (fh : fund_holdings)
    (balance_sheets : gmap string company_data) (fx : gmap string Q) :
  ∃ pd, compute_pension_data fh balance_sheets fx = Some pd
    ∧ (Forall (λ e, 0 <= e_weight e
                    ∧ e_zakaatable_pct e <= e_zakaatable_pct_broad e
                    ∧ e_zakaatable_pct_broad e
                      <= e_zakaatable_pct_assets_only e) (p_holdings pd) →
       fund_zakaatable_pct pd <= fund_zakaatable_pct_broad pd
       ∧ fund_zakaatable_pct_broad pd <= fund_zakaatable_pct_assets_only pd).
Proof.
  unfold compute_pension_data.
  destruct (mapM_pension_entries balance_sheets fx (holdings fh))
    as (rs & -> & _).
  simpl. eexists. split; [done |]. simpl. intros Hall.
  split; apply round_mono; unfold fund_pct; apply Qplus_le_l,
    weighted_sum_mono; eapply Forall_impl; try exact Hall;
    intros e (? & ? & ?); by split.
Qed.

(** ** [compute_isa_data] *)

Lemma price_gbp_total p c fx : ∃ y, price_gbp p c fx = Some y.
Proof.
  unfold price_gbp. destruct (Py.ltb 0 (rate fx c)) eqn:E.
  - apply ltb_lt in E. rewrite truediv_Some by by apply pos_nonzero.
    simpl. destruct (is_minor_unit c); eauto.
  - simpl. destruct (is_minor_unit c); eauto.
Qed.

(** The entries of the two pages, from the percentages of the record. *)
Lemma pension_entry_of_pcts balance_sheets fx h s b a :
  compute_zakaatable_pcts
    (default empty_company (balance_sheets !! h_ticker h)) fx
  = Some (s, b, a) →
  ∃ e, pension_entry_of balance_sheets fx h = Some e
    ∧ e_ticker e = h_ticker h
    ∧ e_zakaatable_pct e = s
    ∧ e_zakaatable_pct_broad e = b
    ∧ e_zakaatable_pct_assets_only e = a
    ∧ e_fallback e
      = default true
          (cd_fallback (default empty_company (balance_sheets !! h_ticker h)))
    ∧ e_error e
      = cd_error (default empty_company (balance_sheets !! h_ticker h)).
Proof.
  intros H. unfold pension_entry_of. rewrite H. simpl.
  eexists. split; [done |]. by simpl.
Qed.

Lemma isa_entry_of_pcts balance_sheets fx h s b a :
  compute_zakaatable_pcts
    (default empty_company (balance_sheets !! ih_ticker h)) fx
  = Some (s, b, a) →
  ∃ e, isa_entry_of balance_sheets fx h = Some e
    ∧ ie_ticker e = ih_ticker h
    ∧ ie_zakaatable_pct e = s
    ∧ ie_zakaatable_pct_broad e = b
    ∧ ie_zakaatable_pct_assets_only e = a
    ∧ ie_fallback e
      = default true
          (cd_fallback
             (default empty_company (balance_sheets !! ih_ticker h)))
    ∧ ie_error e
      = cd_error (default empty_company (balance_sheets !! ih_ticker h)).
Proof.
  intros H. unfold isa_entry_of. rewrite H.
  cbn [mbind option_bind].
  destruct (price_gbp_total
    (default 0 (cd_current_price
       (default empty_company (balance_sheets !! ih_ticker h))))
    (default "USD"%string (cd_trading_currency
       (default empty_company (balance_sheets !! ih_ticker h)))) fx)
    as (y & ->).
  cbn [mbind option_bind]. eexists. split; [done |]. by simpl.
Qed.

(** X25.  The two pages agree on a ticker: the entry of the pension page
    and the entry of the ISA page for the same ticker, balance sheets and
    rate table show the same three percentages, the same fallback flag and
    the same error. *)
Theorem isa_pension_agree (balance_sheets : gmap string company_data)
    (fx : gmap string Q) (h : holding) (ih : isa_holding) :
  h_ticker h = ih_ticker ih →
  ∃ e ie, pension_entry_of balance_sheets fx h = Some e
    ∧ isa_entry_of balance_sheets fx ih = Some ie
    ∧ ie_zakaatable_pct ie = e_zakaatable_pct e
    ∧ ie_zakaatable_pct_broad ie = e_zakaatable_pct_broad e
    ∧ ie_zakaatable_pct_assets_only ie = e_zakaatable_pct_assets_only e
    ∧ ie_fallback ie = e_fallback e
    ∧ ie_error ie = e_error e.
Proof.
  intros Ht.
  destruct (pcts_total
    (default empty_company (balance_sheets !! h_ticker h)) fx)
    as ([[s b] a] & Hp).
  destruct (pension_entry_of_pcts balance_sheets fx h s b a Hp)
    as (e & He & _ & Es & Eb & Ea & Ef & Ee).
  rewrite Ht in Hp.
  destruct (isa_entry_of_pcts balance_sheets fx ih s b a Hp)
    as (ie & Hie & _ & Is & Ib & Ia & If & Ie).
  exists e, ie. rewrite Es, Eb, Ea, Ef, Ee, Is, Ib, Ia, If, Ie, Ht.
  by repeat split.
Qed.

Lemma isa_pension_agree_witness :
  ∃ e ie,
    pension_entry_of scenario_3_sheets gbp_usd_rates
      {| h_name := "Acme"%string; h_ticker := "ACME"%string;
         h_country := "US"%string; h_weight := 60 |} = Some e
    ∧ isa_entry_of scenario_3_sheets gbp_usd_rates
        {| ih_name := "Acme"%string; ih_ticker := "ACME"%string |} = Some ie
    ∧ ie_zakaatable_pct ie = e_zakaatable_pct e
    ∧ ie_zakaatable_pct_broad ie = e_zakaatable_pct_broad e
    ∧ ie_zakaatable_pct_assets_only ie = e_zakaatable_pct_assets_only e
    ∧ ie_fallback ie = e_fallback e
    ∧ ie_error ie = e_error e.
Proof.
  apply (isa_pension_agree scenario_3_sheets gbp_usd_rates
           {| h_name := "Acme"%string; h_ticker := "ACME"%string;
              h_country := "US"%string; h_weight := 60 |}
           {| ih_name := "Acme"%string; ih_ticker := "ACME"%string |}).
  reflexivity.
Defined.

(** X26.  For a trading currency other than [GBP], [GBp] and [GBX]: when
    its rate is zero or negative the price in pounds is 0; when its rate
    and the rate of the pound are both above zero, the price in pounds is
    the price divided by the rate of the currency and multiplied by the
    rate of the pound, the very amount the normalizer of
    [_convert_and_calc_pct] returns for a conversion to [GBP]. *)
Theorem price_gbp_conversion (p : Q) (c : string) (fx : gmap string Q) :
  is_minor_unit c = false →
  c ≠ "GBP"%string →
  (rate fx c <= 0 → price_gbp p c fx = Some 0)
  ∧ (0 < rate fx c → 0 < rate fx "GBP" →
     price_gbp p c fx = Some (p / rate fx c * rate fx "GBP")
     ∧ price_gbp p c fx = normalize p c "GBP" fx).
Proof.
  intros Hc Hne. split.
  - intros Hr. unfold price_gbp.
    rewrite (proj2 (ltb_ge 0 (rate fx c)) Hr). simpl. by rewrite Hc.
  - intros Hr Hg. unfold price_gbp.
    rewrite (proj2 (ltb_lt 0 (rate fx c)) Hr).
    rewrite truediv_Some by by apply pos_nonzero.
    simpl. rewrite Hc. split; [done |].
    by destruct (normalize_cases p c "GBP" fx) as [(_ & _ & _ & ->) | [[? | Hn] _]];
      [| | destruct Hn].
Qed.

Lemma price_gbp_conversion_witness :
  price_gbp 10 "EUR" (<["EUR"%string := 0]> gbp_usd_rates) = Some 0
  ∧ price_gbp 10 "USD" gbp_usd_rates
    = Some (10 / rate gbp_usd_rates "USD" * rate gbp_usd_rates "GBP")
  ∧ price_gbp 10 "USD" gbp_usd_rates = normalize 10 "USD" "GBP" gbp_usd_rates.
Proof.
  split.
  - apply (price_gbp_conversion 10 "EUR" (<["EUR"%string := 0]> gbp_usd_rates));
      [reflexivity | discriminate | vm_compute; discriminate].
  - apply (price_gbp_conversion 10 "USD" gbp_usd_rates);
      [reflexivity | discriminate | reflexivity | reflexivity].
Defined.

(** ** [main] *)

Lemma fromkeys_fold (xs keys : list string) :
  NoDup keys →
  NoDup (fold_left
           (λ keys x, if bool_decide (x ∈ keys) then keys else keys ++ [x])
           xs keys)
  ∧ ∀ x, x ∈ fold_left
           (λ keys x, if bool_decide (x ∈ keys) then keys else keys ++ [x])
           xs keys
         ↔ x ∈ keys ∨ x ∈ xs.
Proof.
  revert keys. induction xs as [| x0 xs IH]; intros keys Hnd; simpl.
  - split; [done |]. intros x. rewrite elem_of_nil. tauto.
  - case_bool_decide as Hin.
    + destruct (IH keys Hnd) as [H1 H2]. split; [done |].
      intros x. rewrite H2, elem_of_cons.
      split; [tauto |]. intros [? | [-> | ?]]; auto.
    + assert (Hnd' : NoDup (keys ++ [x0])).
      { apply NoDup_app. split; [done |]. split; [| apply NoDup_singleton].
        intros x Hx ->%list_elem_of_singleton. done. }
      destruct (IH _ Hnd') as [H1 H2]. split; [done |].
      intros x. rewrite H2, elem_of_app, list_elem_of_singleton, elem_of_cons.
      tauto.
Qed.

(** X27.  The list of tickers [main] fetches, [list(dict.fromkeys(xs))],
    has no ticker twice and has exactly the tickers of [xs]; a list
    without repetition comes back unchanged. *)
Theorem dict_fromkeys_spec (xs : list string) :
  NoDup (dict_fromkeys xs)
  ∧ (∀ x, x ∈ dict_fromkeys xs ↔ x ∈ xs)
  ∧ (NoDup xs → dict_fromkeys xs = xs).
Proof.
  unfold dict_fromkeys.
  destruct (fromkeys_fold xs [] (NoDup_nil_2)) as [H1 H2].
  split; [done |]. split.
  - intros x. rewrite H2, elem_of_nil. tauto.
  - intros Hnd.
    assert (H : ∀ keys, NoDup (keys ++ xs) →
      fold_left
        (λ keys x, if bool_decide (x ∈ keys) then keys else keys ++ [x])
        xs keys = keys ++ xs).
    { clear. induction xs as [| x0 xs IH]; intros keys Hnd; simpl.
      - by rewrite app_nil_r.
      - apply NoDup_app in Hnd as Hnd'. destruct Hnd' as (_ & Hdis & _).
        rewrite bool_decide_eq_false_2.
        + rewrite IH; [by rewrite <- app_assoc |]. by rewrite <- app_assoc.
        + intros Hin. apply (Hdis x0 Hin). by left. }
    by apply (H []).
Qed.

Lemma fetched_record (tickers : list string) (y : yahoo) (t : string) :
  t ∈ tickers →
  default empty_company (fetch_all_balance_sheets tickers y !! t)
  = record_of y t.
Proof.
  intros Hin. unfold fetch_all_balance_sheets, fetch_all_loop.
  by rewrite fetch_loop_lookup, bool_decide_eq_true_2.
Qed.

(** A fetched record carries an error exactly when it is flagged
    fallback. *)
Lemma record_of_flag y t :
  default true (cd_fallback (record_of y t)) = true
  ↔ is_Some (cd_error (record_of y t)).
Proof.
  unfold record_of. destruct (y t) as [answer | e]; [| by split; eauto].
  destruct (choose_balance_sheet_cases answer)
    as [[ty H] | (bs_date & latest & rest & ty & H)].
  - destruct (fetch_company_no_sheet t answer _ H)
      as (ln & mc & tc & fc & cp & ->).
    by split; eauto.
  - pose proof (choose_balance_sheet_nonempty _ _ _ H) as Hne.
    unfold fetch_company. rewrite H. cbn [default from_option id].
    rewrite Hne. destruct (all_zero (resolve_line_items latest)); simpl.
    + by split; eauto.
    + split; [done |]. by intros [? ?].
Qed.

Lemma mapM_Forall {A B : Type} (f : A → option B) (P : B → Prop) hs rs :
  (∀ h e, h ∈ hs → f h = Some e → P e) →
  mapM f hs = Some rs → Forall P rs.
Proof.
  revert rs. induction hs as [| h hs IH]; intros rs HP; simpl.
  - by intros [= <-].
  - destruct (f h) as [e |] eqn:He; [| done]. simpl.
    destruct (mapM f hs) as [k |] eqn:Hk; [| done]. simpl.
    intros [= <-]. constructor.
    + apply (HP h); [by left | done].
    + apply IH; [| done]. intros h' e' Hin. apply HP. by right.
Qed.

Lemma mapM_map {A B C : Type} (f : A → option B) (g : B → C) (g' : A → C)
    hs rs :
  (∀ h e, f h = Some e → g e = g' h) →
  mapM f hs = Some rs → map g rs = map g' hs.
Proof.
  intros Hg. revert rs. induction hs as [| h hs IH]; intros rs; simpl.
  - by intros [= <-].
  - destruct (f h) as [e |] eqn:He; [| done]. simpl.
    destruct (mapM f hs) as [k |] eqn:Hk; [| done]. simpl.
    intros [= <-]. simpl. by rewrite (Hg h e He), (IH k).
Qed.

Lemma compute_isa_data_total isa balance_sheets fx :
  ∃ idata, compute_isa_data isa balance_sheets fx = Some idata.
Proof.
  unfold compute_isa_data. induction isa as [| h isa [k IH]]; simpl.
  - by eexists.
  - destruct (pcts_total
      (default empty_company (balance_sheets !! ih_ticker h)) fx)
      as ([[s b] a] & Hp).
    destruct (isa_entry_of_pcts balance_sheets fx h s b a Hp) as (e & -> & _).
    rewrite IH. simpl. by eexists.
Qed.

Lemma compute_pension_data_total fh balance_sheets fx :
  ∃ pd, compute_pension_data fh balance_sheets fx = Some pd
    ∧ mapM (pension_entry_of balance_sheets fx) (holdings fh)
      = Some (p_holdings pd).
Proof.
  unfold compute_pension_data.
  destruct (mapM_pension_entries balance_sheets fx (holdings fh))
    as (rs & -> & _).
  simpl. by eexists.
Qed.

(** X28.  A run ends without result exactly when the rates cannot be had:
    whatever Yahoo answers, for any ticker, [main] returns the data of
    both pages once [fetch_fx_rates] has returned. *)
Theorem main_fails_only_on_rates (fh : fund_holdings)
    (isa_holdings : list isa_holding) (data : fx_response) (y : yahoo) :
  main fh isa_holdings data y = None ↔ fetch_fx_rates data = None.
Proof.
  unfold main. destruct (fetch_fx_rates data) as [fx |]; simpl; [| done].
  set (bs := fetch_all_balance_sheets _ y).
  destruct (compute_pension_data_total fh bs fx) as (pd & -> & _).
  destruct (compute_isa_data_total isa_holdings bs fx) as (idata & ->).
  simpl. by split.
Qed.

(** X29.  In the data [main] returns, each page has one entry per holding,
    in the order of the holdings file; every entry has its three
    percentages in [[0, 100]]; and an entry is flagged fallback exactly
    when it carries an error: every holding finds the record fetched for
    its ticker. *)
Theorem main_entries (fh : fund_holdings) (isa_holdings : list isa_holding)
    (data : fx_response) (y : yahoo) (pd : pension_data)
    (isa_data : list isa_entry) :
  main fh isa_holdings data y = Some (pd, isa_data) →
  map e_ticker (p_holdings pd) = map h_ticker (holdings fh)
  ∧ map ie_ticker isa_data = map ih_ticker isa_holdings
  ∧ Forall (λ e, in_range (e_zakaatable_pct e)
                 ∧ in_range (e_zakaatable_pct_broad e)
                 ∧ in_range (e_zakaatable_pct_assets_only e)
                 ∧ (e_fallback e = true ↔ is_Some (e_error e)))
      (p_holdings pd)
  ∧ Forall (λ e, in_range (ie_zakaatable_pct e)
                 ∧ in_range (ie_zakaatable_pct_broad e)
                 ∧ in_range (ie_zakaatable_pct_assets_only e)
                 ∧ (ie_fallback e = true ↔ is_Some (ie_error e)))
      isa_data.
Proof.
  unfold main. destruct (fetch_fx_rates data) as [fx |]; simpl; [| done].
  set (tickers := dict_fromkeys _).
  set (bs := fetch_all_balance_sheets tickers y).
  assert (Hin : ∀ t, t ∈ map h_ticker (holdings fh)
                     ++ map ih_ticker isa_holdings → t ∈ tickers).
  { intros t Ht. unfold tickers, dict_fromkeys.
    apply (fromkeys_fold _ [] NoDup_nil_2). by right. }
  destruct (compute_pension_data_total fh bs fx) as (pd' & -> & Hpd).
  destruct (compute_isa_data_total isa_holdings bs fx) as (idata & Hisa).
  rewrite Hisa. simpl. intros [= <- <-]. unfold compute_isa_data in Hisa.
  split; [| split; [| split]].
  - apply (mapM_map (pension_entry_of bs fx) e_ticker h_ticker); [| done].
    intros h e He.
    destruct (pcts_total (default empty_company (bs !! h_ticker h)) fx)
      as ([[s b] a] & Hp).
    destruct (pension_entry_of_pcts bs fx h s b a Hp) as (e0 & He0 & Ht & _).
    rewrite He0 in He. by injection He as <-.
  - apply (mapM_map (isa_entry_of bs fx) ie_ticker ih_ticker); [| done].
    intros h e He.
    destruct (pcts_total (default empty_company (bs !! ih_ticker h)) fx)
      as ([[s b] a] & Hp).
    destruct (isa_entry_of_pcts bs fx h s b a Hp) as (e0 & He0 & Ht & _).
    rewrite He0 in He. by injection He as <-.
  - apply (mapM_Forall (pension_entry_of bs fx) _ (holdings fh)); [| done].
    intros h e Hh He.
    assert (Hrec : default empty_company (bs !! h_ticker h)
                   = record_of y (h_ticker h)).
    { apply fetched_record, Hin, elem_of_app. left.
      by apply list_elem_of_fmap_2. }
    destruct (pcts_of_sound _ fx (record_of_sound y (h_ticker h)))
      as (s & b & a & Hp & Hs & Hb & Ha).
    rewrite <- Hrec in Hp.
    destruct (pension_entry_of_pcts bs fx h s b a Hp)
      as (e0 & He0 & _ & <- & <- & <- & Ef & Ee).
    rewrite He0 in He. injection He as <-.
    split; [done |]. split; [done |]. split; [done |].
    rewrite Ef, Ee, Hrec. apply record_of_flag.
  - apply (mapM_Forall (isa_entry_of bs fx) _ isa_holdings); [| done].
    intros h e Hh He.
    assert (Hrec : default empty_company (bs !! ih_ticker h)
                   = record_of y (ih_ticker h)).
    { apply fetched_record, Hin, elem_of_app. right.
      by apply list_elem_of_fmap_2. }
    destruct (pcts_of_sound _ fx (record_of_sound y (ih_ticker h)))
      as (s & b & a & Hp & Hs & Hb & Ha).
    rewrite <- Hrec in Hp.
    destruct (isa_entry_of_pcts bs fx h s b a Hp)
      as (e0 & He0 & _ & <- & <- & <- & Ef & Ee).
    rewrite He0 in He. injection He as <-.
    split; [done |]. split; [done |]. split; [done |].
    rewrite Ef, Ee, Hrec. apply record_of_flag.
Qed.

Lemma main_entries_witness :
  ∃ pd isa_data,
    main scenario_3 [penny_holding] api_success yahoo_sample
    = Some (pd, isa_data)
    ∧ map e_ticker (p_holdings pd) = map h_ticker (holdings scenario_3)
    ∧ map ie_ticker isa_data = map ih_ticker [penny_holding]
    ∧ Forall (λ e, in_range (e_zakaatable_pct e)
                   ∧ in_range (e_zakaatable_pct_broad e)
                   ∧ in_range (e_zakaatable_pct_assets_only e)
                   ∧ (e_fallback e = true ↔ is_Some (e_error e)))
        (p_holdings pd)
    ∧ Forall (λ e, in_range (ie_zakaatable_pct e)
                   ∧ in_range (ie_zakaatable_pct_broad e)
                   ∧ in_range (ie_zakaatable_pct_assets_only e)
                   ∧ (ie_fallback e = true ↔ is_Some (ie_error e)))
        isa_data.
Proof.
  assert (H : ∃ r, main scenario_3 [penny_holding] api_success yahoo_sample
                   = Some r)
    by (eexists; vm_compute; reflexivity).
  destruct H as [[pd isa_data] H]. exists pd, isa_data.
  split; [exact H |].
  exact (main_entries scenario_3 [penny_holding] api_success yahoo_sample
           pd isa_data H).
Defined.
